(** * tvpine-cli datafeed: the multi-exchange candle streamer

    A shallow embedding of [src/tvpine-cli/src/datafeed/streamer.py]
    (class [MultiExchangeStreamer]) and the properties of its historical
    sync, live-message handlers, timeline buffer and checkpoints.

    Conventions of the embedding.
    - A Python exception is a value of [exn]; a computation that may raise
      returns a [result].
    - Methods of the class are computations of the monad [Py]: they take the
      streamer object and give back the (possibly mutated) object together
      with a [result].  A mutation done before an exception is raised stays,
      as in Python.
    - What the object does to the outside world (console lines, HTTP
      requests, socket operations, CSV files, sleeping, calling the
      observer) is appended to the [trace] of the object, in order.
    - The libraries the file imports ([json], [requests], [pandas],
      [websocket], the builtins [int] and [float] on text) are not part of
      the repository: they are parameters of the development, see
      [Library].  Printing to the console, [os.makedirs], [ws.send],
      [ws.close], [time.sleep] and [DataFrame.to_csv] are taken to return
      normally; the observer may raise, and is taken not to touch the
      streamer it is registered on.
    - A Python string is a [string]; its characters are those of [string]. *)

From stdpp Require Import gmap strings list fin_maps sorting.
From Stdlib Require Import ZArith Lia Floats.

Set Warnings "-register-all".
Open Scope Z_scope.

(** ** Exceptions and results *)

Inductive exn : Set :=
| TypeError
| KeyError
| IndexError
| AttributeError
| ValueError
| OverflowError
| JSONDecodeError
| RequestException
| OutOfBoundsDatetime
| ObserverError.

Inductive result (A : Type) : Type :=
| Ok (a : A)
| Raise (e : exn).
Arguments Ok {A} a.
Arguments Raise {A} e.

#[global] Instance result_ret : MRet result := fun A a => Ok a.
#[global] Instance result_bind : MBind result := fun A B f r =>
  match r with
  | Ok a => f a
  | Raise e => Raise e
  end.

(** ** The class constant [EXCHANGES] *)

Record exchange_cfg : Type := {
  ws_url : string;
  rest_url : string;
  intervals : gmap string string
}.

Definition bybit_cfg : exchange_cfg := {|
  ws_url := "wss://stream.bybit.com/v5/public/linear";
  rest_url := "https://api.bybit.com/v5/market/kline";
  intervals := list_to_map
    [("1s", "1"); ("1m", "1"); ("5m", "5"); ("15m", "15");
     ("1h", "60"); ("4h", "240"); ("1D", "D")]
|}.

Definition binance_cfg : exchange_cfg := {|
  ws_url := "wss://fstream.binance.com/ws";
  rest_url := "https://fapi.binance.com/fapi/v1/klines";
  intervals := list_to_map
    [("1s", "1s"); ("1m", "1m"); ("5m", "5m"); ("15m", "15m");
     ("1h", "1h"); ("4h", "4h"); ("1D", "1d")]
|}.

Definition okx_cfg : exchange_cfg := {|
  ws_url := "wss://ws.okx.com:8443/ws/v5/public";
  rest_url := "https://www.okx.com/api/v5/market/candles";
  intervals := list_to_map
    [("1m", "1m"); ("5m", "5m"); ("15m", "15m");
     ("1h", "1H"); ("4h", "4H"); ("1D", "1D")]
|}.

Definition EXCHANGES : gmap string exchange_cfg :=
  list_to_map [("bybit", bybit_cfg); ("binance", binance_cfg); ("okx", okx_cfg)].

(** [self.EXCHANGES[ex]['intervals'].get(self.timeframe, dflt)], one
    definition per exchange, with the default its call sites pass. *)
Definition bybit_interval (tf : string) : string :=
  default "1" (intervals bybit_cfg !! tf).
Definition binance_interval (tf : string) : string :=
  default "1m" (intervals binance_cfg !! tf).
Definition okx_interval (tf : string) : string :=
  default "1m" (intervals okx_cfg !! tf).

(** ** Text helpers *)

(** [needle in hay] on two Python strings. *)
Fixpoint is_substring (needle hay : string) : bool :=
  String.prefix needle hay ||
  match hay with
  | EmptyString => false
  | String _ rest => is_substring needle rest
  end.

(** [s[:n]] and [s[n:]] on a string. *)
Fixpoint str_take (n : nat) (s : string) : string :=
  match n, s with
  | S n', String c rest => String c (str_take n' rest)
  | _, _ => EmptyString
  end.
Fixpoint str_drop (n : nat) (s : string) : string :=
  match n, s with
  | S n', String _ rest => str_drop n' rest
  | _, _ => s
  end.

(** [len(l)] and, for [n > 0], [l[-n:]]. *)
Definition len {A} (l : list A) : Z := Z.of_nat (length l).
Definition py_last_n {A} (n : Z) (l : list A) : list A :=
  drop (length l - Z.to_nat n) l.

(** [s.lower()], on ASCII letters. *)
Definition ascii_lower (c : Ascii.ascii) : Ascii.ascii :=
  let n := Ascii.nat_of_ascii c in
  if ((65 <=? n) && (n <=? 90))%nat then Ascii.ascii_of_nat (n + 32) else c.
Fixpoint str_lower (s : string) : string :=
  match s with
  | EmptyString => EmptyString
  | String c rest => String (ascii_lower c) (str_lower rest)
  end.

(** [sorted(l, key=...)]: a stable sort, ascending by an integer key. *)
Fixpoint insert_by {A} (key : A → Z) (x : A) (l : list A) : list A :=
  match l with
  | [] => [x]
  | y :: l' => if key x <=? key y then x :: y :: l' else y :: insert_by key x l'
  end.
Definition py_sorted {A} (key : A → Z) (l : list A) : list A :=
  foldr (insert_by key) [] l.

(** * Data

    ** JSON values, as [json.loads] and [resp.json()] build them

    A Python [float] is an IEEE 754 double: [PrimFloat.float].  An object is
    the list of the items of the [dict], in insertion order (iterating a
    [dict] yields its keys in that order). *)
Inductive json : Type :=
| JNull
| JBool (b : bool)
| JInt (z : Z)
| JFloat (f : float)
| JStr (s : string)
| JArr (l : list json)
| JObj (kvs : list (string * json)).

Fixpoint dict_lookup (k : string) (kvs : list (string * json)) : option json :=
  match kvs with
  | [] => None
  | (k', v) :: rest => if String.eqb k' k then Some v else dict_lookup k rest
  end.

(** ** Python operations on JSON values *)

(** [k in c] for a string [k]. *)
Definition py_in (k : string) (c : json) : result bool :=
  match c with
  | JObj kvs => Ok (bool_decide (is_Some (dict_lookup k kvs)))
  | JArr l =>
      Ok (existsb (fun x => match x with JStr s => String.eqb s k | _ => false end) l)
  | JStr s => Ok (is_substring k s)
  | JNull | JBool _ | JInt _ | JFloat _ => Raise TypeError
  end.

(** [c.get(k, dflt)]. *)
Definition py_get (c : json) (k : string) (dflt : json) : result json :=
  match c with
  | JObj kvs => Ok (default dflt (dict_lookup k kvs))
  | _ => Raise AttributeError
  end.

(** [c[k]] for a string [k]. *)
Definition py_item (c : json) (k : string) : result json :=
  match c with
  | JObj kvs =>
      match dict_lookup k kvs with
      | Some v => Ok v
      | None => Raise KeyError
      end
  | _ => Raise TypeError
  end.

(** [c[i]] for a literal index [i >= 0]. The keys of an object are strings,
    so an integer key is never found. *)
Definition py_index (c : json) (i : nat) : result json :=
  match c with
  | JArr l =>
      match l !! i with
      | Some v => Ok v
      | None => Raise IndexError
      end
  | JStr s =>
      match String.get i s with
      | Some ch => Ok (JStr (String ch EmptyString))
      | None => Raise IndexError
      end
  | JObj _ => Raise KeyError
  | JNull | JBool _ | JInt _ | JFloat _ => Raise TypeError
  end.

(** [for x in c]: the values the loop visits. *)
Definition py_iter (c : json) : result (list json) :=
  match c with
  | JArr l => Ok l
  | JStr s => Ok ((fun ch => JStr (String ch EmptyString)) <$> String.list_ascii_of_string s)
  | JObj kvs => Ok ((fun kv => JStr kv.1) <$> kvs)
  | JNull | JBool _ | JInt _ | JFloat _ => Raise TypeError
  end.

(** ** Candles

    A candle is a [dict]; the historical paths build it without the key
    ['confirmed'], the live paths with it. *)
Record candle : Type := {
  timestamp : Z;
  open : float;
  high : float;
  low : float;
  close : float;
  volume : float;
  confirmed : option json
}.

(** ** What the streamer does to the world *)

Inductive console_line : Type :=
| FetchingLine (limit : Z) (tf ex : string)
| LoadedLine (n : Z)
| HistoricalErrorLine (e : exn)
| MessageErrorLine (e : exn)
| ConnectedLine (ex tf sym : string)
| SocketErrorLine
| ClosedLine
| ReconnectingLine
| CandleLine (c : candle)
| SavedLine (n : Z) (filename : string).

Inductive effect : Type :=
| Console (line : console_line)
| MakeDirs (path : string)
| HttpGet (url : string) (params : list (string * json))
| ToCsv (filename : string) (rows : list candle)
| RunForever (url : string)
| WsSend (payload : json)
| WsCloseCall
| Sleep (seconds : Z)
| Observer (c : candle).

(** ** The object *)

(** The callbacks a [WebSocketApp] is built with are closures of the
    method that builds it; each closes over the interval code (and, for
    OKX, the instrument id) computed when the application was built. *)
Inductive handlers : Type :=
| BybitHandlers (interval : string)
| BinanceHandlers
| OkxHandlers (interval inst_id : string).

Record WebSocketApp : Type := {
  app_url : string;
  app_handlers : handlers
}.

Record Streamer : Type := {
  symbol : string;
  timeframe : string;
  exchange : string;
  output_dir : string;
  candles : list candle;
  ws : option WebSocketApp;
  running : bool;
  on_candle_callback : option (candle → result unit);
  trace : list effect
}.

Definition set_candles (cs : list candle) (s : Streamer) : Streamer :=
  {| symbol := symbol s; timeframe := timeframe s; exchange := exchange s;
     output_dir := output_dir s; candles := cs; ws := ws s;
     running := running s; on_candle_callback := on_candle_callback s;
     trace := trace s |}.
Definition set_ws (a : WebSocketApp) (s : Streamer) : Streamer :=
  {| symbol := symbol s; timeframe := timeframe s; exchange := exchange s;
     output_dir := output_dir s; candles := candles s; ws := Some a;
     running := running s; on_candle_callback := on_candle_callback s;
     trace := trace s |}.
Definition set_running (b : bool) (s : Streamer) : Streamer :=
  {| symbol := symbol s; timeframe := timeframe s; exchange := exchange s;
     output_dir := output_dir s; candles := candles s; ws := ws s;
     running := b; on_candle_callback := on_candle_callback s;
     trace := trace s |}.
Definition set_on_candle_callback (f : option (candle → result unit))
    (s : Streamer) : Streamer :=
  {| symbol := symbol s; timeframe := timeframe s; exchange := exchange s;
     output_dir := output_dir s; candles := candles s; ws := ws s;
     running := running s; on_candle_callback := f;
     trace := trace s |}.
Definition add_effect (e : effect) (s : Streamer) : Streamer :=
  {| symbol := symbol s; timeframe := timeframe s; exchange := exchange s;
     output_dir := output_dir s; candles := candles s; ws := ws s;
     running := running s; on_candle_callback := on_candle_callback s;
     trace := trace s ++ [e] |}.

(** ** The monad of methods *)

Definition Py (A : Type) : Type := Streamer → Streamer * result A.

#[global] Instance Py_ret : MRet Py := fun A a s => (s, Ok a).
#[global] Instance Py_bind : MBind Py := fun A B f m s =>
  match m s with
  | (s', Ok a) => f a s'
  | (s', Raise e) => (s', Raise e)
  end.

Definition self : Py Streamer := fun s => (s, Ok s).
Definition modify (f : Streamer → Streamer) : Py unit := fun s => (f s, Ok ()).
Definition emit (e : effect) : Py unit := modify (add_effect e).
Definition raise {A} (e : exn) : Py A := fun s => (s, Raise e).
Definition lift {A} (r : result A) : Py A := fun s => (s, r).

(** [try: body except Exception as e: handler(e)]. *)
Definition try_except {A} (body : Py A) (handler : exn → Py A) : Py A :=
  fun s =>
    match body s with
    | (s', Ok a) => (s', Ok a)
    | (s', Raise e) => handler e s'
    end.

(** [for x in l: body(x)]. *)
Fixpoint py_for {A} (l : list A) (body : A → Py unit) : Py unit :=
  match l with
  | [] => mret ()
  | x :: rest => body x;; py_for rest body
  end.

(** The object a method leaves behind, and what it returned. *)
Definition exec {A} (m : Py A) (s : Streamer) : Streamer := (m s).1.
Definition outcome {A} (m : Py A) (s : Streamer) : result A := (m s).2.

(** ** [__init__] *)

Definition __init__ (symbol timeframe exchange output_dir : string) : Streamer :=
  {| symbol := symbol; timeframe := timeframe; exchange := exchange;
     output_dir := output_dir; candles := []; ws := None; running := false;
     on_candle_callback := None; trace := [MakeDirs output_dir] |}.

(** ** [_save_csv] *)

Definition csv_filename (s : Streamer) (prefix : string) : string :=
  output_dir s +:+ "/" +:+ symbol s +:+ "_" +:+ timeframe s +:+ "_" +:+ prefix +:+ ".csv".

Definition _save_csv (prefix : string) : Py unit :=
  s ← self;
  match candles s with
  | [] => mret ()
  | _ :: _ =>
      emit (ToCsv (csv_filename s prefix) (candles s));;
      emit (Console (SavedLine (len (candles s)) (csv_filename s prefix)))
  end.

(** ** [_process_candle] *)

Definition _process_candle (c : candle) : Py unit :=
  modify (fun s => set_candles (candles s ++ [c]) s);;
  s ← self;
  (if 10000 <? len (candles s)
   then modify (set_candles (py_last_n 10000 (candles s)))
   else mret ());;
  emit (Console (CandleLine c));;
  s ← self;
  match on_candle_callback s with
  | Some f => emit (Observer c);; lift (f c)
  | None => mret ()
  end;;
  s ← self;
  if len (candles s) `mod` 100 =? 0 then _save_csv "live" else mret ().

(** ** [stop] *)

Definition stop : Py unit :=
  modify (set_running false);;
  s ← self;
  match ws s with
  | Some _ => emit WsCloseCall
  | None => mret ()
  end;;
  _save_csv "final".

(** The snapshot files a trace leaves on disk: [to_csv] overwrites. *)
Definition snapshots (tr : list effect) : gmap string (list candle) :=
  foldl (fun files e =>
           match e with
           | ToCsv filename rows => <[filename := rows]> files
           | _ => files
           end) ∅ tr.

(** The rows handed to [to_csv], call by call. *)
Definition csv_writes (tr : list effect) : list (string * list candle) :=
  omap (fun e => match e with ToCsv f rows => Some (f, rows) | _ => None end) tr.

(** The HTTP requests sent. *)
Definition http_requests (tr : list effect) : list (string * list (string * json)) :=
  omap (fun e => match e with HttpGet url params => Some (url, params) | _ => None end) tr.

(** The sockets opened ([run_forever] calls) and the pauses taken. *)
Definition connects (tr : list effect) : list string :=
  omap (fun e => match e with RunForever url => Some url | _ => None end) tr.
Definition sleeps (tr : list effect) : list Z :=
  omap (fun e => match e with Sleep n => Some n | _ => None end) tr.

(** The candles a trace shows to the console and to the observer. *)
Definition shown (tr : list effect) : list candle :=
  omap (fun e => match e with
                 | Console (CandleLine c) | Observer c => Some c
                 | _ => None
                 end) tr.

(** * The libraries the module imports

    [json.loads] on the text of a socket frame; the builtins [int] and
    [float] on text and on each other's values; the range in which
    [pd.to_datetime(n, unit='ms')] gives a [Timestamp] rather than raising;
    and [requests.get(url, params=params, timeout=10)] followed by
    [raise_for_status()] and [resp.json()]: the decoded body, or the
    exception one of them raises. *)
Class Library : Type := {
  message : Type;
  json_loads : message → result json;
  int_of_str : string → result Z;
  int_of_float : float → result Z;
  float_of_str : string → result float;
  float_of_int : Z → result float;
  datetime_in_bounds : Z → bool;
  requests_get : string → list (string * json) → result json
}.

(** * The methods that talk to the libraries *)

Section Methods.

Context {lib : Library}.

(** [int(v)] and [float(v)]. *)
Definition py_int (v : json) : result Z :=
  match v with
  | JInt z => Ok z
  | JBool b => Ok (if b then 1 else 0)
  | JFloat f => int_of_float f
  | JStr s => int_of_str s
  | JNull | JArr _ | JObj _ => Raise TypeError
  end.

Definition py_float (v : json) : result float :=
  match v with
  | JFloat f => Ok f
  | JInt z => float_of_int z
  | JBool b => float_of_int (if b then 1 else 0)
  | JStr s => float_of_str s
  | JNull | JArr _ | JObj _ => Raise TypeError
  end.

(** [pd.to_datetime(n, unit='ms')]; a [Timestamp] is kept as its number of
    milliseconds. *)
Definition to_datetime_ms (n : Z) : result Z :=
  if datetime_in_bounds n then Ok n else Raise OutOfBoundsDatetime.

(** ** Historical fetch *)

(** The candle each of the three fetchers builds from one kline. *)
Definition historical_candle (kline : json) : result candle :=
  k0 ← py_index kline 0; n ← py_int k0; ts ← to_datetime_ms n;
  k1 ← py_index kline 1; o ← py_float k1;
  k2 ← py_index kline 2; h ← py_float k2;
  k3 ← py_index kline 3; l ← py_float k3;
  k4 ← py_index kline 4; c ← py_float k4;
  k5 ← py_index kline 5; v ← py_float k5;
  mret {| timestamp := ts; open := o; high := h; low := l; close := c;
          volume := v; confirmed := None |}.

(** [candles = []; for kline in klines: candles.append({...})]. *)
Definition historical_candles (klines : json) : result (list candle) :=
  ks ← py_iter klines;
  mapM historical_candle ks.

Definition http_get (url : string) (params : list (string * json)) : Py json :=
  emit (HttpGet url params);;
  lift (requests_get url params).

Definition bybit_params (s : Streamer) (limit : Z) : list (string * json) :=
  [("category", JStr "linear"); ("symbol", JStr (symbol s));
   ("interval", JStr (bybit_interval (timeframe s)));
   ("limit", JInt (Z.min limit 1000))].

Definition bybit_klines (data : json) : result json :=
  has_result ← py_in "result" data;
  invalid ← (if negb has_result then mret true
             else r ← py_item data "result";
                  has_list ← py_in "list" r;
                  mret (negb has_list));
  if (invalid : bool) then Raise ValueError
  else r ← py_item data "result"; py_item r "list".

Definition _fetch_bybit_historical (limit : Z) : Py (list candle) :=
  s ← self;
  data ← http_get (rest_url bybit_cfg) (bybit_params s limit);
  klines ← lift (bybit_klines data);
  cs ← lift (historical_candles klines);
  mret (py_sorted timestamp cs).

Definition binance_params (s : Streamer) (limit : Z) : list (string * json) :=
  [("symbol", JStr (symbol s));
   ("interval", JStr (binance_interval (timeframe s)));
   ("limit", JInt (Z.min limit 1500))].

Definition _fetch_binance_historical (limit : Z) : Py (list candle) :=
  s ← self;
  data ← http_get (rest_url binance_cfg) (binance_params s limit);
  cs ← lift (historical_candles data);
  mret cs.

Definition okx_inst_id (s : Streamer) : string :=
  str_take 3 (symbol s) +:+ "-" +:+ str_drop 3 (symbol s) +:+ "-SWAP".

Definition okx_params (s : Streamer) (limit : Z) : list (string * json) :=
  [("instId", JStr (okx_inst_id s));
   ("bar", JStr (okx_interval (timeframe s)));
   ("limit", JInt (Z.min limit 300))].

Definition okx_klines (data : json) : result json :=
  has_data ← py_in "data" data;
  if negb has_data then Raise ValueError else py_item data "data".

Definition _fetch_okx_historical (limit : Z) : Py (list candle) :=
  s ← self;
  data ← http_get (rest_url okx_cfg) (okx_params s limit);
  klines ← lift (okx_klines data);
  cs ← lift (historical_candles klines);
  mret (py_sorted timestamp cs).

Definition fetch_historical (limit : Z) : Py (list candle) :=
  s ← self;
  emit (Console (FetchingLine limit (timeframe s) (exchange s)));;
  try_except
    (data ← (if String.eqb (exchange s) "bybit" then _fetch_bybit_historical limit
             else if String.eqb (exchange s) "binance" then _fetch_binance_historical limit
             else if String.eqb (exchange s) "okx" then _fetch_okx_historical limit
             else raise ValueError);
     modify (set_candles data);;
     _save_csv "historical";;
     emit (Console (LoadedLine (len data)));;
     mret data)
    (fun e => emit (Console (HistoricalErrorLine e));; mret []).

(** ** Live feed: the Bybit socket *)

Definition bybit_live_candle (data : json) : result candle :=
  d ← py_item data "data";
  candle_data ← py_index d 0;
  v0 ← py_item candle_data "start"; n ← py_int v0; ts ← to_datetime_ms n;
  v1 ← py_item candle_data "open"; o ← py_float v1;
  v2 ← py_item candle_data "high"; h ← py_float v2;
  v3 ← py_item candle_data "low"; l ← py_float v3;
  v4 ← py_item candle_data "close"; c ← py_float v4;
  v5 ← py_item candle_data "volume"; v ← py_float v5;
  cf ← py_get candle_data "confirm" (JBool false);
  mret {| timestamp := ts; open := o; high := h; low := l; close := c;
          volume := v; confirmed := Some cf |}.

(** ['data' in data and f'kline.{interval}' in data.get('topic', '')]. *)
Definition bybit_accepts (interval : string) (data : json) : result bool :=
  has_data ← py_in "data" data;
  if (has_data : bool)
  then topic ← py_get data "topic" (JStr ""); py_in ("kline." +:+ interval) topic
  else mret false.

Definition bybit_on_message (interval : string) (m : message) : Py unit :=
  try_except
    (data ← lift (json_loads m);
     accepted ← lift (bybit_accepts interval data);
     if (accepted : bool)
     then c ← lift (bybit_live_candle data); _process_candle c
     else mret ())
    (fun e => emit (Console (MessageErrorLine e))).

Definition bybit_subscribe (interval sym : string) : json :=
  JObj [("op", JStr "subscribe");
        ("args", JArr [JStr ("kline." +:+ interval +:+ "." +:+ sym)])].

Definition bybit_on_open (interval : string) : Py unit :=
  s ← self;
  emit (Console (ConnectedLine "Bybit" (timeframe s) (symbol s)));;
  emit (WsSend (bybit_subscribe interval (symbol s))).

Definition bybit_on_error : Py unit := emit (Console SocketErrorLine).

(** [WebSocketApp(url, on_open, on_message, on_error, on_close)] and
    [run_forever()]: from here on the socket library calls the handlers,
    see [on_event] below. *)
Definition _start_bybit_ws : Py unit :=
  s ← self;
  let interval := bybit_interval (timeframe s) in
  modify (set_ws {| app_url := ws_url bybit_cfg;
                    app_handlers := BybitHandlers interval |});;
  emit (RunForever (ws_url bybit_cfg)).

Definition bybit_on_close : Py unit :=
  emit (Console ClosedLine);;
  s ← self;
  if running s
  then emit (Console ReconnectingLine);; emit (Sleep 5);; _start_bybit_ws
  else mret ().

(** ** Live feed: the Binance socket *)

Definition binance_live_candle (data : json) : result candle :=
  kline ← py_item data "k";
  v0 ← py_item kline "t"; n ← py_int v0; ts ← to_datetime_ms n;
  v1 ← py_item kline "o"; o ← py_float v1;
  v2 ← py_item kline "h"; h ← py_float v2;
  v3 ← py_item kline "l"; l ← py_float v3;
  v4 ← py_item kline "c"; c ← py_float v4;
  v5 ← py_item kline "v"; v ← py_float v5;
  x ← py_item kline "x";
  mret {| timestamp := ts; open := o; high := h; low := l; close := c;
          volume := v; confirmed := Some x |}.

Definition binance_on_message (m : message) : Py unit :=
  try_except
    (data ← lift (json_loads m);
     has_k ← lift (py_in "k" data);
     if (has_k : bool)
     then c ← lift (binance_live_candle data); _process_candle c
     else mret ())
    (fun e => emit (Console (MessageErrorLine e))).

Definition binance_on_open : Py unit :=
  s ← self;
  emit (Console (ConnectedLine "Binance" (timeframe s) (symbol s))).

Definition binance_ws_url (s : Streamer) : string :=
  ws_url binance_cfg +:+ "/" +:+ str_lower (symbol s) +:+ "@kline_"
    +:+ binance_interval (timeframe s).

(** [WebSocketApp(ws_url, on_open, on_message)]: no [on_close] and no
    [on_error] is passed. *)
Definition _start_binance_ws : Py unit :=
  s ← self;
  modify (set_ws {| app_url := binance_ws_url s;
                    app_handlers := BinanceHandlers |});;
  emit (RunForever (binance_ws_url s)).

(** ** Live feed: the OKX socket *)

Definition okx_live_candle (kline : json) : result candle :=
  k0 ← py_index kline 0; n ← py_int k0; ts ← to_datetime_ms n;
  k1 ← py_index kline 1; o ← py_float k1;
  k2 ← py_index kline 2; h ← py_float k2;
  k3 ← py_index kline 3; l ← py_float k3;
  k4 ← py_index kline 4; c ← py_float k4;
  k5 ← py_index kline 5; v ← py_float k5;
  mret {| timestamp := ts; open := o; high := h; low := l; close := c;
          volume := v; confirmed := Some (JBool true) |}.

Definition okx_on_message (m : message) : Py unit :=
  try_except
    (data ← lift (json_loads m);
     has_data ← lift (py_in "data" data);
     if (has_data : bool)
     then d ← lift (py_item data "data");
          klines ← lift (py_iter d);
          py_for klines (fun kline =>
            c ← lift (okx_live_candle kline); _process_candle c)
     else mret ())
    (fun e => emit (Console (MessageErrorLine e))).

Definition okx_subscribe (interval inst_id : string) : json :=
  JObj [("op", JStr "subscribe");
        ("args", JArr [JObj [("channel", JStr ("candle" +:+ interval));
                             ("instId", JStr inst_id)]])].

Definition okx_on_open (interval inst_id : string) : Py unit :=
  s ← self;
  emit (Console (ConnectedLine "OKX" (timeframe s) (symbol s)));;
  emit (WsSend (okx_subscribe interval inst_id)).

(** [WebSocketApp(url, on_open, on_message)]: no [on_close] and no
    [on_error] is passed. *)
Definition _start_okx_ws : Py unit :=
  s ← self;
  let interval := okx_interval (timeframe s) in
  let inst_id := okx_inst_id s in
  modify (set_ws {| app_url := ws_url okx_cfg;
                    app_handlers := OkxHandlers interval inst_id |});;
  emit (RunForever (ws_url okx_cfg)).

(** ** [start_live] *)

Definition start_live (on_candle : option (candle → result unit)) : Py unit :=
  modify (set_running true);;
  modify (set_on_candle_callback on_candle);;
  s ← self;
  if String.eqb (exchange s) "bybit" then _start_bybit_ws
  else if String.eqb (exchange s) "binance" then _start_binance_ws
  else if String.eqb (exchange s) "okx" then _start_okx_ws
  else mret ().

(** ** The run loop of the socket library

    [run_forever] calls the handlers the application was built with, one
    event at a time; an event for which no handler was passed does
    nothing.  After [Closed] the run loop returns; on Bybit, [on_close]
    has by then started the next application (the nested [run_forever]),
    which receives the events that follow. *)
Inductive ws_event : Type :=
| Opened
| Received (m : message)
| Failed
| Closed.

Definition on_event (ev : ws_event) : Py unit :=
  s ← self;
  match ws s with
  | None => mret ()
  | Some app =>
      match app_handlers app, ev with
      | BybitHandlers interval, Opened => bybit_on_open interval
      | BybitHandlers interval, Received m => bybit_on_message interval m
      | BybitHandlers _, Failed => bybit_on_error
      | BybitHandlers _, Closed => bybit_on_close
      | BinanceHandlers, Opened => binance_on_open
      | BinanceHandlers, Received m => binance_on_message m
      | BinanceHandlers, (Failed | Closed) => mret ()
      | OkxHandlers interval inst_id, Opened => okx_on_open interval inst_id
      | OkxHandlers _ _, Received m => okx_on_message m
      | OkxHandlers _ _, (Failed | Closed) => mret ()
      end
  end.

(** What happens to a session after [start_live]: socket events, and the
    caller's [stop()]. *)
Inductive session_step : Type :=
| Event (ev : ws_event)
| CallStop.

Definition do_step (x : session_step) : Py unit :=
  match x with
  | Event ev => on_event ev
  | CallStop => stop
  end.

Definition run_session (steps : list session_step) : Py unit :=
  py_for steps do_step.

(** What the fetcher of the exchange of [s] returns. *)
Definition fetch_result (s : Streamer) (limit : Z) : result (list candle) :=
  if String.eqb (exchange s) "bybit" then
    data ← requests_get (rest_url bybit_cfg) (bybit_params s limit);
    klines ← bybit_klines data;
    cs ← historical_candles klines;
    mret (py_sorted timestamp cs)
  else if String.eqb (exchange s) "binance" then
    data ← requests_get (rest_url binance_cfg) (binance_params s limit);
    historical_candles data
  else if String.eqb (exchange s) "okx" then
    data ← requests_get (rest_url okx_cfg) (okx_params s limit);
    klines ← okx_klines data;
    cs ← historical_candles klines;
    mret (py_sorted timestamp cs)
  else Raise ValueError.

End Methods.

(** * Vocabulary of the properties

    What each method appends to the trace, and the relations between the
    streamer before and after a method that the properties are stated
    with. *)

(** What [_save_csv] appends to the trace. *)
Definition save_effects (prefix : string) (s : Streamer) : list effect :=
  match candles s with
  | [] => []
  | _ :: _ => [ToCsv (csv_filename s prefix) (candles s);
               Console (SavedLine (len (candles s)) (csv_filename s prefix))]
  end.

(** What [stop] appends to the trace before the final checkpoint. *)
Definition close_effects (s : Streamer) : list effect :=
  match ws s with
  | Some _ => [WsCloseCall]
  | None => []
  end.

(** The rows [_save_csv] hands to [to_csv]: none for an empty timeline. *)
Definition saved_rows (prefix : string) (s : Streamer) : list (string * list candle) :=
  match candles s with
  | [] => []
  | _ :: _ => [(csv_filename s prefix, candles s)]
  end.

(** The observer, when one is registered, returns normally on [c]. *)
Definition observer_returns (c : candle) (s : Streamer) : Prop :=
  ∀ f, on_candle_callback s = Some f → f c = Ok ().

(** What calling the observer appends to the trace. *)
Definition observer_effects (c : candle) (s : Streamer) : list effect :=
  match on_candle_callback s with
  | Some _ => [Observer c]
  | None => []
  end.

(** The streamer after the append, the cut and the console line of
    [_process_candle]. *)
Definition shows (c : candle) (s : Streamer) : Streamer :=
  add_effect (Console (CandleLine c))
    (set_candles (py_last_n 10000 (candles s ++ [c])) s).

(** The checkpoint at the end of [_process_candle]. *)
Definition live_checkpoint (s : Streamer) : Streamer :=
  if len (candles s) `mod` 100 =? 0 then exec (_save_csv "live") s else s.

(** The streamer after one [_process_candle] call per candle of [cs]. *)
Definition feed (cs : list candle) (s : Streamer) : Streamer :=
  foldl (fun s c => exec (_process_candle c) s) s cs.

(** [live_step P s s']: from [s] to [s'] only the timeline and the trace
    changed; the timeline stays within its cap; every candle that entered
    the timeline or was shown to the console or the observer satisfies
    [P]; no socket was opened and no pause taken. *)
Definition live_step (P : candle → Prop) (s s' : Streamer) : Prop :=
  running s' = running s ∧ ws s' = ws s ∧
  on_candle_callback s' = on_candle_callback s ∧ symbol s' = symbol s ∧
  timeframe s' = timeframe s ∧ output_dir s' = output_dir s ∧
  exchange s' = exchange s ∧
  (len (candles s) <= 10000 → len (candles s') <= 10000) ∧
  (∀ c, c ∈ candles s' → c ∈ candles s ∨ P c) ∧
  ∃ new, trace s' = trace s ++ new ∧ connects new = [] ∧ sleeps new = [] ∧
         Forall P (shown new).

(** [session_ok s s']: the timeline stays within its cap, and a session
    that was stopped stays stopped, opens no socket and takes no pause. *)
Definition session_ok (s s' : Streamer) : Prop :=
  (len (candles s) <= 10000 → len (candles s') <= 10000) ∧
  (running s = false →
   running s' = false ∧ connects (trace s') = connects (trace s) ∧
   sleeps (trace s') = sleeps (trace s)).

(** Methods whose every run is related by [R]. *)
Definition preserves (R : Streamer → Streamer → Prop) {A} (m : Py A) : Prop :=
  ∀ s, R s (exec m s).

(** The request the fetcher of the exchange of [s] sends. *)
Definition fetch_request (s : Streamer) (limit : Z) : string * list (string * json) :=
  if String.eqb (exchange s) "bybit" then (rest_url bybit_cfg, bybit_params s limit)
  else if String.eqb (exchange s) "binance" then (rest_url binance_cfg, binance_params s limit)
  else (rest_url okx_cfg, okx_params s limit).

(** The page-size cap each fetcher passes to [min(limit, _)]. *)
Definition page_cap (ex : string) : Z :=
  if String.eqb ex "bybit" then 1000
  else if String.eqb ex "binance" then 1500
  else 300.

(** The klines of a response body, as the fetcher of [ex] reads them. *)
Definition response_klines (ex : string) (data : json) : result (list json) :=
  if String.eqb ex "bybit" then klines ← bybit_klines data; py_iter klines
  else if String.eqb ex "binance" then py_iter data
  else klines ← okx_klines data; py_iter klines.

(** The request a fetch appends to the trace; none for an unknown
    exchange. *)
Definition fetch_effects (s : Streamer) (limit : Z) : list effect :=
  if String.eqb (exchange s) "bybit" || String.eqb (exchange s) "binance"
     || String.eqb (exchange s) "okx"
  then [HttpGet (fetch_request s limit).1 (fetch_request s limit).2]
  else [].

(** Unfolding the monad, for the proofs below. *)
Ltac py_unfold :=
  unfold exec, outcome, mbind, Py_bind, mret, Py_ret, self, modify, emit,
    lift, raise, try_except in *.

Ltac result_cases :=
  unfold mbind, result_bind, mret, result_ret in *;
  repeat match goal with
         | H : context [match ?r with Ok _ => _ | Raise _ => _ end] |- _ =>
             destruct r eqn:?; simpl in H; try discriminate H
         end.

(** * Vocabulary of the further properties *)

Section MoreVocabulary.

Context {lib : Library}.

(** [fetch_historical(limit)] gave up on the exception [e]: it returned the
    empty list, printed the error line last, and left the timeline, the
    running flag, the socket handle and the snapshot files alone. *)
Definition fetch_aborted (limit : Z) (s : Streamer) (e : exn) : Prop :=
  let s' := exec (fetch_historical limit) s in
  outcome (fetch_historical limit) s = Ok [] ∧
  candles s' = candles s ∧ running s' = running s ∧ ws s' = ws s ∧
  csv_writes (trace s') = csv_writes (trace s) ∧
  last (trace s') = Some (Console (HistoricalErrorLine e)).

(** The candle the Bybit handler builds from the first entry of ['data']. *)
Definition bybit_candle_of (candle_data : json) : result candle :=
  v0 ← py_item candle_data "start"; n ← py_int v0; ts ← to_datetime_ms n;
  v1 ← py_item candle_data "open"; o ← py_float v1;
  v2 ← py_item candle_data "high"; h ← py_float v2;
  v3 ← py_item candle_data "low"; l ← py_float v3;
  v4 ← py_item candle_data "close"; c ← py_float v4;
  v5 ← py_item candle_data "volume"; v ← py_float v5;
  cf ← py_get candle_data "confirm" (JBool false);
  mret {| timestamp := ts; open := o; high := h; low := l; close := c;
          volume := v; confirmed := Some cf |}.

End MoreVocabulary.


(** From [s] to [s'] the names of the snapshot files did not change, and
    every row written went to the [live] file. *)
Definition only_live_writes (s s' : Streamer) : Prop :=
  symbol s' = symbol s ∧ timeframe s' = timeframe s ∧
  output_dir s' = output_dir s ∧
  ∃ new, trace s' = trace s ++ new ∧
         Forall (fun w => w.1 = csv_filename s "live") (csv_writes new).

(** * A concrete library, to run the methods on examples

    Frames are given by the value [json.loads] decodes them to; the text
    conversions follow Python on strings of ASCII digits and on integers
    below [2^53] in absolute value, which is all the examples use; every
    HTTP request is answered by one canned response. *)

Definition digit_value (c : Ascii.ascii) : option Z :=
  let n := Ascii.nat_of_ascii c in
  if ((48 <=? n) && (n <=? 57))%nat then Some (Z.of_nat n - 48) else None.

Fixpoint digits_value (acc : Z) (s : string) : option Z :=
  match s with
  | EmptyString => Some acc
  | String c rest => d ← digit_value c; digits_value (10 * acc + d) rest
  end.

Definition demo_int_of_str (s : string) : result Z :=
  match s with
  | EmptyString => Raise ValueError
  | _ => match digits_value 0 s with Some z => Ok z | None => Raise ValueError end
  end.

Definition demo_float_of_int (z : Z) : result float :=
  if Z.abs z <? 2 ^ 53
  then Ok (if z <? 0 then PrimFloat.opp (PrimFloat.of_uint63 (Uint63.of_Z (- z)))
           else PrimFloat.of_uint63 (Uint63.of_Z z))
  else Raise OverflowError.

Definition demo_float_of_str (s : string) : result float :=
  z ← demo_int_of_str s; demo_float_of_int z.

Definition demo_library (response : result json) : Library := {|
  message := json;
  json_loads := Ok;
  int_of_str := demo_int_of_str;
  int_of_float := fun _ => Raise ValueError;
  float_of_str := demo_float_of_str;
  float_of_int := demo_float_of_int;
  datetime_in_bounds := fun n => Z.abs n <? 9223372036854;
  requests_get := fun _ _ => response
|}.

(** A streamer for [BTCUSDT], [1m], as [main] builds it by default. *)
Definition demo_streamer (exchange : string) : Streamer :=
  __init__ "BTCUSDT" "1m" exchange "data".

Definition demo_candle (ts : Z) (cf : option json) : candle :=
  {| timestamp := ts; open := 100%float; high := 110%float; low := 90%float;
     close := 105%float; volume := 7%float; confirmed := cf |}.

(** A kline as Bybit sends it: a list of strings. *)
Definition demo_kline (ts : string) : json :=
  JArr [JStr ts; JStr "100"; JStr "110"; JStr "90"; JStr "105"; JStr "7";
        JStr "735"].

(** Five klines, ascending and then one out of order. *)
Definition demo_klines : json :=
  JArr [demo_kline "1000"; demo_kline "2000"; demo_kline "3000";
        demo_kline "4000"; demo_kline "2500"].


Definition demo_bybit_response : json :=
  JObj [("retCode", JInt 0); ("retMsg", JStr "OK");
        ("result", JObj [("category", JStr "linear"); ("list", demo_klines)])].

Definition demo_okx_response : json :=
  JObj [("code", JStr "0"); ("data", demo_klines)].


(** A candle push as OKX sends it; the kline has nine fields, the last of
    which says whether the bar is closed (["0"]: still in progress). *)
Definition demo_okx_frame : json :=
  JObj [("arg", JObj [("channel", JStr "candle1m"); ("instId", JStr "BTC-USDT-SWAP")]);
        ("data", JArr [JArr [JStr "1000"; JStr "100"; JStr "110"; JStr "90";
                             JStr "105"; JStr "7"; JStr "7"; JStr "735";
                             JStr "0"]])].

(** The library of the live examples: no HTTP request succeeds. *)
Definition demo_live_library : Library := demo_library (Raise RequestException).

(** The session [main] starts with [--live] on each exchange. *)
Definition demo_session (exchange : string) : Streamer :=
  exec (start_live None) (demo_streamer exchange).

(** 10,050 candles, one per millisecond. *)
Definition demo_feed : list candle :=
  (fun i => demo_candle (Z.of_nat i) (Some (JBool false))) <$> seq 0 (Z.to_nat 10050).

(** A streamer with an observer and 99 candles in its timeline. *)
Definition demo_observed : Streamer :=
  set_candles (take 99 demo_feed)
    (set_on_candle_callback (Some (fun _ => Ok ())) (demo_streamer "binance")).


(** * Further examples *)

(** A kline cut short: it has a timestamp and nothing else. *)
Definition demo_short_kline : json := JArr [JStr "2000"].

(** A Bybit response whose second kline is cut short. *)
Definition demo_broken_response : json :=
  JObj [("retCode", JInt 0);
        ("result", JObj [("list", JArr [demo_kline "1000"; demo_short_kline;
                                        demo_kline "3000"])])].


(** A streamer whose timeline is full. *)
Definition demo_full : Streamer :=
  set_candles (take (Z.to_nat 10000) demo_feed) (demo_streamer "binance").

(** A library whose frames are texts that may fail to decode. *)
Definition demo_text_library : Library := {|
  message := option json;
  json_loads := fun m => match m with Some v => Ok v | None => Raise JSONDecodeError end;
  int_of_str := demo_int_of_str;
  int_of_float := fun _ => Raise ValueError;
  float_of_str := demo_float_of_str;
  float_of_int := demo_float_of_int;
  datetime_in_bounds := fun n => Z.abs n <? 9223372036854;
  requests_get := fun _ _ => Raise RequestException
|}.

(** A Bybit kline push entry, and a push that carries two of them. *)
Definition demo_bybit_kline (start : Z) : json :=
  JObj [("start", JInt start); ("open", JStr "100"); ("close", JStr "105");
        ("high", JStr "110"); ("low", JStr "90"); ("volume", JStr "7");
        ("confirm", JBool false)].

Definition demo_bybit_double_push : list (string * json) :=
  [("topic", JStr "kline.1.BTCUSDT");
   ("data", JArr [demo_bybit_kline 1000; demo_bybit_kline 2000])].

(** The acknowledgement of a subscription. *)
Definition demo_ack : list (string * json) :=
  [("success", JBool true); ("op", JStr "subscribe")].


(** A Binance session whose observer raises on every candle. *)
Definition demo_raising_observer : candle → result unit :=
  fun _ => Raise ObserverError.

(** A streamer with that observer and 99 candles in its timeline. *)
Definition demo_observed_raising : Streamer :=
  set_candles (take 99 demo_feed)
    (set_on_candle_callback (Some demo_raising_observer) (demo_streamer "binance")).

(** OKX pushes of two klines, and of a short kline between two good ones. *)
Definition demo_okx_kline (ts : string) : json :=
  JArr [JStr ts; JStr "100"; JStr "110"; JStr "90"; JStr "105"; JStr "7";
        JStr "7"; JStr "735"; JStr "1"].

Definition demo_okx_double_push : list (string * json) :=
  [("arg", JObj [("channel", JStr "candle1m")]);
   ("data", JArr [demo_okx_kline "1000"; demo_okx_kline "2000"])].

Definition demo_okx_broken_push : list (string * json) :=
  [("arg", JObj [("channel", JStr "candle1m")]);
   ("data", JArr ([demo_okx_kline "1000"] ++ demo_short_kline :: [demo_okx_kline "3000"]))].

(** * Properties *)

Section Properties.

Context {lib : Library}.

(** ** The tables *)

Lemma EXCHANGES_lookup :
  EXCHANGES !! "bybit" = Some bybit_cfg ∧
  EXCHANGES !! "binance" = Some binance_cfg ∧
  EXCHANGES !! "okx" = Some okx_cfg ∧
  dom EXCHANGES = {["bybit"; "binance"; "okx"]}.
Proof. repeat split; by vm_compute. Qed.

(** ** Slices *)

Lemma py_last_n_short {A} (n : Z) (l : list A) :
  len l <= n → py_last_n n l = l.
Proof.
  unfold py_last_n, len. intros H.
  replace (length l - Z.to_nat n)%nat with 0%nat by lia. reflexivity.
Qed.

Lemma py_last_n_len {A} (n : Z) (l : list A) :
  0 <= n → len (py_last_n n l) = Z.min n (len l).
Proof.
  unfold py_last_n, len. intros H. rewrite length_drop. lia.
Qed.

Lemma py_last_n_app {A} (n : Z) (l k : list A) :
  0 <= n → py_last_n n (py_last_n n l ++ k) = py_last_n n (l ++ k).
Proof.
  intros Hn. destruct (decide (len l <= n)) as [Hle|Hgt].
  - rewrite (py_last_n_short n l) by assumption. reflexivity.
  - unfold py_last_n, len in *.
    rewrite !length_app, length_drop.
    rewrite <- (drop_app_le l k (length l - Z.to_nat n)) by lia.
    rewrite drop_drop. f_equal. lia.
Qed.

Lemma py_last_n_elem {A} (n : Z) (l : list A) (x : A) :
  x ∈ py_last_n n l → x ∈ l.
Proof.
  unfold py_last_n. intros H.
  rewrite <- (take_drop (length l - Z.to_nat n) l). set_solver.
Qed.

(** ** [_save_csv] *)

Lemma _save_csv_eq (prefix : string) (s : Streamer) :
  _save_csv prefix s =
    (match candles s with
     | [] => s
     | _ :: _ =>
         add_effect (Console (SavedLine (len (candles s)) (csv_filename s prefix)))
           (add_effect (ToCsv (csv_filename s prefix) (candles s)) s)
     end, Ok ()).
Proof.
  unfold _save_csv. py_unfold. destruct (candles s); reflexivity.
Qed.

Lemma _save_csv_trace prefix s :
  trace (exec (_save_csv prefix) s) = trace s ++ save_effects prefix s.
Proof.
  unfold exec, save_effects. rewrite _save_csv_eq. simpl.
  destruct (candles s); simpl; [by rewrite app_nil_r | by rewrite <- app_assoc].
Qed.

Lemma _save_csv_frame prefix s :
  let s' := exec (_save_csv prefix) s in
  candles s' = candles s ∧ running s' = running s ∧ ws s' = ws s ∧
  on_candle_callback s' = on_candle_callback s ∧ symbol s' = symbol s ∧
  timeframe s' = timeframe s ∧ output_dir s' = output_dir s ∧
  exchange s' = exchange s.
Proof.
  unfold exec. rewrite _save_csv_eq. simpl.
  destruct (candles s) eqn:E; simpl; rewrite ?E; repeat split; reflexivity.
Qed.

Lemma _save_csv_ok prefix s : outcome (_save_csv prefix) s = Ok ().
Proof. unfold outcome. rewrite _save_csv_eq. reflexivity. Qed.

(** ** [_process_candle] *)

Lemma _process_candle_eq (c : candle) (s : Streamer) :
  _process_candle c s =
    match on_candle_callback s with
    | None => (live_checkpoint (shows c s), Ok ())
    | Some f =>
        match f c with
        | Ok _ => (live_checkpoint (add_effect (Observer c) (shows c s)), Ok ())
        | Raise e => (add_effect (Observer c) (shows c s), Raise e)
        end
    end.
Proof.
  unfold _process_candle, live_checkpoint, shows. py_unfold. simpl.
  assert (Hcut : (if 10000 <? len (candles s ++ [c])
                  then py_last_n 10000 (candles s ++ [c])
                  else candles s ++ [c]) = py_last_n 10000 (candles s ++ [c])).
  { destruct (10000 <? len (candles s ++ [c])) eqn:E; [reflexivity|].
    symmetry. apply py_last_n_short. lia. }
  destruct (10000 <? len (candles s ++ [c])) eqn:E; simpl;
    rewrite <- ?Hcut;
    (destruct (on_candle_callback s) as [f|]; simpl;
     [destruct (f c) as [[]|e]; simpl|]).
  all: unfold set_candles, add_effect; simpl.
  all: try reflexivity.
  all: match goal with
       | |- context [if ?b then _ else _] => destruct b
       end; [rewrite _save_csv_eq|]; reflexivity.
Qed.

Lemma live_checkpoint_trace s :
  trace (live_checkpoint s) =
    trace s ++ (if len (candles s) `mod` 100 =? 0 then save_effects "live" s else []).
Proof.
  unfold live_checkpoint. destruct (_ =? 0).
  - apply _save_csv_trace.
  - by rewrite app_nil_r.
Qed.

Lemma live_checkpoint_frame s :
  let s' := live_checkpoint s in
  candles s' = candles s ∧ running s' = running s ∧ ws s' = ws s ∧
  on_candle_callback s' = on_candle_callback s ∧ symbol s' = symbol s ∧
  timeframe s' = timeframe s ∧ output_dir s' = output_dir s ∧
  exchange s' = exchange s.
Proof.
  unfold live_checkpoint. destruct (_ =? 0).
  - apply _save_csv_frame.
  - repeat split; reflexivity.
Qed.

Lemma _process_candle_candles c s :
  candles (exec (_process_candle c) s) = py_last_n 10000 (candles s ++ [c]).
Proof.
  unfold exec. rewrite _process_candle_eq.
  destruct (on_candle_callback s) as [f|]; [destruct (f c)|]; simpl;
    try reflexivity; by rewrite (proj1 (live_checkpoint_frame _)).
Qed.

Lemma _process_candle_frame c s :
  let s' := exec (_process_candle c) s in
  running s' = running s ∧ ws s' = ws s ∧
  on_candle_callback s' = on_candle_callback s ∧ symbol s' = symbol s ∧
  timeframe s' = timeframe s ∧ output_dir s' = output_dir s ∧
  exchange s' = exchange s.
Proof.
  unfold exec. rewrite _process_candle_eq.
  destruct (on_candle_callback s) as [f|] eqn:Ef; [destruct (f c)|]; simpl;
    try (repeat split; (reflexivity || by symmetry));
    match goal with
    | |- context [live_checkpoint ?x] =>
        destruct (live_checkpoint_frame x) as (_ & -> & -> & -> & -> & -> & -> & ->)
    end; simpl; repeat split; (reflexivity || by symmetry).
Qed.

Lemma _process_candle_nonempty c s : candles (exec (_process_candle c) s) ≠ [].
Proof.
  rewrite _process_candle_candles. intros H.
  pose proof (py_last_n_len 10000 (candles s ++ [c]) ltac:(lia)) as Hl.
  rewrite H in Hl. unfold len in Hl. rewrite length_app in Hl. simpl in Hl. lia.
Qed.

Lemma _process_candle_returns c s :
  observer_returns c s →
  outcome (_process_candle c) s = Ok () ∧
  let s' := exec (_process_candle c) s in
  trace s' = trace s ++ [Console (CandleLine c)] ++ observer_effects c s ++
    (if len (candles s') `mod` 100 =? 0 then save_effects "live" s' else []).
Proof.
  intros Hobs. pose proof (_process_candle_candles c s) as Hc.
  unfold exec, outcome, observer_effects in *. rewrite _process_candle_eq in *.
  unfold observer_returns in Hobs.
  destruct (on_candle_callback s) as [f|] eqn:Ef.
  - rewrite (Hobs f eq_refl) in *. simpl in *. split; [reflexivity|].
    rewrite live_checkpoint_trace. simpl.
    destruct (live_checkpoint_frame (add_effect (Observer c) (shows c s)))
      as (E1 & _ & _ & _ & E2 & E3 & E4 & _). simpl in *.
    unfold save_effects, csv_filename. rewrite E1, E2, E3, E4. simpl.
    rewrite <- !app_assoc. reflexivity.
  - simpl in *. split; [reflexivity|].
    rewrite live_checkpoint_trace. simpl.
    destruct (live_checkpoint_frame (shows c s))
      as (E1 & _ & _ & _ & E2 & E3 & E4 & _). simpl in *.
    unfold save_effects, csv_filename. rewrite E1, E2, E3, E4. simpl.
    rewrite <- !app_assoc. reflexivity.
Qed.

Lemma _process_candle_raises c s f e :
  on_candle_callback s = Some f → f c = Raise e →
  outcome (_process_candle c) s = Raise e ∧
  trace (exec (_process_candle c) s) =
    trace s ++ [Console (CandleLine c); Observer c].
Proof.
  intros Hf He. unfold exec, outcome. rewrite _process_candle_eq, Hf, He. simpl.
  split; [reflexivity|]. by rewrite <- app_assoc.
Qed.

(** ** [stop] *)

Lemma stop_eq s :
  stop s =
    (exec (_save_csv "final")
       (match ws s with
        | Some _ => add_effect WsCloseCall (set_running false s)
        | None => set_running false s
        end), Ok ()).
Proof.
  unfold stop. py_unfold. simpl.
  destruct (ws s); simpl; rewrite _save_csv_eq; reflexivity.
Qed.

Lemma stop_ok s : outcome stop s = Ok ().
Proof. unfold outcome. by rewrite stop_eq. Qed.

Lemma stop_frame s :
  let s' := exec stop s in
  running s' = false ∧ candles s' = candles s ∧ ws s' = ws s ∧
  on_candle_callback s' = on_candle_callback s ∧ symbol s' = symbol s ∧
  timeframe s' = timeframe s ∧ output_dir s' = output_dir s ∧
  exchange s' = exchange s.
Proof.
  unfold exec at 1. rewrite stop_eq. simpl.
  match goal with
  | |- context [exec (_save_csv "final") ?x] =>
      destruct (_save_csv_frame "final" x) as (-> & -> & -> & -> & -> & -> & -> & ->)
  end.
  destruct (ws s) eqn:E; simpl; rewrite ?E; repeat split; reflexivity.
Qed.

Lemma stop_trace s :
  trace (exec stop s) = trace s ++ close_effects s ++ save_effects "final" s.
Proof.
  unfold exec at 1. rewrite stop_eq. simpl. rewrite _save_csv_trace.
  unfold close_effects, save_effects, csv_filename.
  destruct (ws s); simpl; [rewrite <- app_assoc|]; reflexivity.
Qed.

(** ** Reading a trace *)

Lemma csv_writes_app tr1 tr2 :
  csv_writes (tr1 ++ tr2) = csv_writes tr1 ++ csv_writes tr2.
Proof. apply omap_app. Qed.

Lemma connects_app tr1 tr2 : connects (tr1 ++ tr2) = connects tr1 ++ connects tr2.
Proof. apply omap_app. Qed.

Lemma sleeps_app tr1 tr2 : sleeps (tr1 ++ tr2) = sleeps tr1 ++ sleeps tr2.
Proof. apply omap_app. Qed.

Lemma shown_app tr1 tr2 : shown (tr1 ++ tr2) = shown tr1 ++ shown tr2.
Proof. apply omap_app. Qed.

Lemma snapshots_app tr1 tr2 :
  snapshots (tr1 ++ tr2) =
    foldl (fun files e =>
             match e with
             | ToCsv filename rows => <[filename := rows]> files
             | _ => files
             end) (snapshots tr1) tr2.
Proof. unfold snapshots. apply foldl_app. Qed.

Lemma csv_writes_save prefix s :
  csv_writes (save_effects prefix s) = saved_rows prefix s.
Proof. unfold save_effects, saved_rows. destruct (candles s); reflexivity. Qed.

Lemma csv_writes_close s : csv_writes (close_effects s) = [].
Proof. unfold close_effects. destruct (ws s); reflexivity. Qed.

(** ** Feeding the timeline *)

Lemma feed_candles cs s :
  len (candles s) <= 10000 →
  candles (feed cs s) = py_last_n 10000 (candles s ++ cs).
Proof.
  unfold feed. revert s. induction cs as [|c cs IH]; intros s Hs; simpl.
  - rewrite app_nil_r. symmetry. by apply py_last_n_short.
  - rewrite IH.
    + rewrite _process_candle_candles, py_last_n_app by lia.
      by rewrite <- app_assoc.
    + rewrite _process_candle_candles, py_last_n_len by lia. lia.
Qed.

(** ** A small logic for the message handlers *)

Lemma live_step_refl P s : live_step P s s.
Proof.
  unfold live_step. repeat split; try reflexivity; auto.
  exists []. rewrite app_nil_r. repeat split; constructor.
Qed.

Lemma live_step_trans P s1 s2 s3 :
  live_step P s1 s2 → live_step P s2 s3 → live_step P s1 s3.
Proof.
  intros (A1 & A2 & A3 & A4 & A5 & A6 & A7 & A8 & A9 & n1 & T1 & C1 & S1 & F1)
         (B1 & B2 & B3 & B4 & B5 & B6 & B7 & B8 & B9 & n2 & T2 & C2 & S2 & F2).
  unfold live_step. repeat split; try congruence; auto.
  - intros c Hc. destruct (B9 c Hc) as [H|H]; auto.
  - exists (n1 ++ n2). rewrite T2, T1, <- app_assoc.
    rewrite connects_app, sleeps_app, shown_app, C1, C2, S1, S2.
    repeat split. by apply Forall_app.
Qed.

(** The rules of [preserves], for a preorder [R]. *)
Section Preserves.

Variable R : Streamer → Streamer → Prop.
Hypothesis R_refl : ∀ s, R s s.
Hypothesis R_trans : ∀ s1 s2 s3, R s1 s2 → R s2 s3 → R s1 s3.

Lemma preserves_ret {A} (a : A) : preserves R (mret a).
Proof. intros s. apply R_refl. Qed.

Lemma preserves_self : preserves R self.
Proof. intros s. apply R_refl. Qed.

Lemma preserves_raise {A} e : preserves R (raise e : Py A).
Proof. intros s. apply R_refl. Qed.

Lemma preserves_lift {A} (r : result A) : preserves R (lift r).
Proof. intros s. apply R_refl. Qed.

Lemma preserves_bind {A B} (m : Py A) (f : A → Py B) :
  preserves R m → (∀ a, preserves R (f a)) → preserves R (m ≫= f).
Proof.
  intros Hm Hf s. specialize (Hm s). unfold exec in *. py_unfold.
  destruct (m s) as [s' [a|e]]; simpl in *; [|assumption].
  eapply R_trans; [eassumption|]. apply Hf.
Qed.

Lemma preserves_bind_self {B} (f : Streamer → Py B) :
  (∀ s, R s (exec (f s) s)) → preserves R (self ≫= f).
Proof. intros Hf s. unfold exec in *. py_unfold. apply Hf. Qed.

Lemma preserves_bind_lift {A B} (r : result A) (f : A → Py B) :
  (∀ a, r = Ok a → preserves R (f a)) → preserves R (lift r ≫= f).
Proof.
  intros Hf s. unfold exec. py_unfold. destruct r as [a|e]; simpl.
  - by apply Hf.
  - apply R_refl.
Qed.

Lemma preserves_try {A} (body : Py A) (handler : exn → Py A) :
  preserves R body → (∀ e, preserves R (handler e)) →
  preserves R (try_except body handler).
Proof.
  intros Hb Hh s. specialize (Hb s). unfold exec in *. py_unfold.
  destruct (body s) as [s' [a|e]]; simpl in *; [assumption|].
  eapply R_trans; [eassumption|]. apply Hh.
Qed.

Lemma preserves_for {A} (l : list A) (body : A → Py unit) :
  (∀ x, x ∈ l → preserves R (body x)) → preserves R (py_for l body).
Proof.
  induction l as [|x l IH]; intros Hb; simpl.
  - apply preserves_ret.
  - apply preserves_bind.
    + apply Hb. left.
    + intros _. apply IH. intros y Hy. apply Hb. by right.
Qed.

End Preserves.

Lemma live_error_line P e :
  preserves (live_step P) (emit (Console (MessageErrorLine e))).
Proof.
  intros s. unfold exec, emit, modify, live_step. simpl.
  repeat split; auto. exists [Console (MessageErrorLine e)].
  repeat split; constructor.
Qed.

Lemma shown_save prefix s : shown (save_effects prefix s) = [].
Proof. unfold save_effects. destruct (candles s); reflexivity. Qed.

Lemma connects_save prefix s : connects (save_effects prefix s) = [].
Proof. unfold save_effects. destruct (candles s); reflexivity. Qed.

Lemma sleeps_save prefix s : sleeps (save_effects prefix s) = [].
Proof. unfold save_effects. destruct (candles s); reflexivity. Qed.

Lemma live_process P c : P c → preserves (live_step P) (_process_candle c).
Proof.
  intros Hc s.
  destruct (_process_candle_frame c s) as (E1 & E2 & E3 & E4 & E5 & E6 & E7).
  unfold live_step. rewrite _process_candle_candles.
  repeat split; try assumption.
  - intros _. rewrite py_last_n_len by lia. lia.
  - intros c' Hc'. apply py_last_n_elem, elem_of_app in Hc' as [H|H]; [by left|].
    apply list_elem_of_singleton in H. subst. by right.
  - unfold exec. rewrite _process_candle_eq.
    destruct (on_candle_callback s) as [f|]; [destruct (f c)|]; simpl;
      rewrite ?live_checkpoint_trace; simpl.
    + eexists. split; [rewrite <- !app_assoc; reflexivity|].
      rewrite !connects_app, !sleeps_app, !shown_app. simpl.
      destruct (_ =? 0); rewrite ?connects_save, ?sleeps_save, ?shown_save;
        repeat split; repeat constructor; assumption.
    + eexists. split; [rewrite <- !app_assoc; reflexivity|].
      repeat split; repeat constructor; assumption.
    + eexists. split; [rewrite <- !app_assoc; reflexivity|].
      rewrite !connects_app, !sleeps_app, !shown_app. simpl.
      destruct (_ =? 0); rewrite ?connects_save, ?sleeps_save, ?shown_save;
        repeat split; repeat constructor; assumption.
Qed.

Lemma okx_live_candle_confirmed kline c :
  okx_live_candle kline = Ok c → confirmed c = Some (JBool true).
Proof.
  unfold okx_live_candle. intros H. result_cases. by inversion H.
Qed.

Lemma historical_candle_unconfirmed kline c :
  historical_candle kline = Ok c → confirmed c = None.
Proof.
  unfold historical_candle. intros H. result_cases. by inversion H.
Qed.

Lemma live_ret {A} P (a : A) : preserves (live_step P) (mret a).
Proof. apply preserves_ret, live_step_refl. Qed.

Lemma live_bind_lift {A B} P (r : result A) (f : A → Py B) :
  (∀ a, r = Ok a → preserves (live_step P) (f a)) →
  preserves (live_step P) (lift r ≫= f).
Proof. apply preserves_bind_lift, live_step_refl. Qed.

Lemma live_try P (body : Py unit) :
  preserves (live_step P) body →
  preserves (live_step P)
    (try_except body (fun e => emit (Console (MessageErrorLine e)))).
Proof.
  intros Hb. apply preserves_try; [apply live_step_trans|assumption|].
  intros e. apply live_error_line.
Qed.

Lemma live_for {A} P (l : list A) (body : A → Py unit) :
  (∀ x, preserves (live_step P) (body x)) →
  preserves (live_step P) (py_for l body).
Proof.
  intros Hb. apply preserves_for; [apply live_step_refl|apply live_step_trans|].
  intros x _. apply Hb.
Qed.

Lemma okx_on_message_live m :
  preserves (live_step (fun c => confirmed c = Some (JBool true))) (okx_on_message m).
Proof.
  unfold okx_on_message. apply live_try.
  apply live_bind_lift; intros data _.
  apply live_bind_lift; intros has_data _.
  destruct has_data; [|apply live_ret].
  apply live_bind_lift; intros d _.
  apply live_bind_lift; intros klines _.
  apply live_for; intros kline.
  apply live_bind_lift; intros c Hc.
  apply live_process. by eapply okx_live_candle_confirmed.
Qed.

Lemma bybit_on_message_live interval m :
  preserves (live_step (fun _ => True)) (bybit_on_message interval m).
Proof.
  unfold bybit_on_message. apply live_try.
  apply live_bind_lift; intros data _.
  apply live_bind_lift; intros accepted _.
  destruct accepted; [|apply live_ret].
  apply live_bind_lift; intros c _. by apply live_process.
Qed.

Lemma binance_on_message_live m :
  preserves (live_step (fun _ => True)) (binance_on_message m).
Proof.
  unfold binance_on_message. apply live_try.
  apply live_bind_lift; intros data _.
  apply live_bind_lift; intros has_k _.
  destruct has_k; [|apply live_ret].
  apply live_bind_lift; intros c _. by apply live_process.
Qed.

Lemma live_step_weaken (P Q : candle → Prop) s s' :
  (∀ c, P c → Q c) → live_step P s s' → live_step Q s s'.
Proof.
  intros HPQ (A1 & A2 & A3 & A4 & A5 & A6 & A7 & A8 & A9 & n & T & C & S & F).
  unfold live_step. repeat split; try assumption.
  - intros c Hc. destruct (A9 c Hc); auto.
  - exists n. repeat split; try assumption. eapply Forall_impl; eauto.
Qed.

(** ** Sessions *)

Lemma session_ok_refl s : session_ok s s.
Proof. unfold session_ok. auto. Qed.

Lemma session_ok_trans s1 s2 s3 :
  session_ok s1 s2 → session_ok s2 s3 → session_ok s1 s3.
Proof.
  intros [A1 A2] [B1 B2]. split; [auto|].
  intros Hr. destruct (A2 Hr) as (R2 & C2 & S2).
  destruct (B2 R2) as (R3 & C3 & S3). repeat split; congruence.
Qed.

Lemma live_step_session P s s' : live_step P s s' → session_ok s s'.
Proof.
  intros (A1 & _ & _ & _ & _ & _ & _ & A8 & _ & n & T & C & S & _).
  split; [assumption|]. intros Hr.
  rewrite T, connects_app, sleeps_app, C, S, !app_nil_r. repeat split. congruence.
Qed.

Lemma emit_session e :
  connects [e] = [] → sleeps [e] = [] → preserves session_ok (emit e).
Proof.
  intros Hc Hs s. unfold exec, emit, modify, session_ok. simpl.
  rewrite connects_app, sleeps_app, Hc, Hs, !app_nil_r. auto.
Qed.

Lemma session_bind {A B} (m : Py A) (f : A → Py B) :
  preserves session_ok m → (∀ a, preserves session_ok (f a)) →
  preserves session_ok (m ≫= f).
Proof. apply preserves_bind, session_ok_trans. Qed.

Lemma _start_bybit_ws_eq s :
  _start_bybit_ws s =
    (add_effect (RunForever (ws_url bybit_cfg))
       (set_ws {| app_url := ws_url bybit_cfg;
                  app_handlers := BybitHandlers (bybit_interval (timeframe s)) |} s),
     Ok ()).
Proof. reflexivity. Qed.

Lemma bybit_on_close_eq s :
  bybit_on_close s =
    if running s
    then (add_effect (RunForever (ws_url bybit_cfg))
            (set_ws {| app_url := ws_url bybit_cfg;
                       app_handlers := BybitHandlers (bybit_interval (timeframe s)) |}
               (add_effect (Sleep 5)
                  (add_effect (Console ReconnectingLine)
                     (add_effect (Console ClosedLine) s)))), Ok ())
    else (add_effect (Console ClosedLine) s, Ok ()).
Proof.
  unfold bybit_on_close. py_unfold. simpl. destruct (running s); reflexivity.
Qed.

Lemma bybit_on_close_session : preserves session_ok bybit_on_close.
Proof.
  intros s. unfold exec. rewrite bybit_on_close_eq.
  destruct (running s) eqn:Er; unfold session_ok; simpl; rewrite Er.
  - split; [auto|discriminate].
  - rewrite connects_app, sleeps_app, !app_nil_r. auto.
Qed.

Lemma bybit_on_open_session interval : preserves session_ok (bybit_on_open interval).
Proof.
  unfold bybit_on_open. apply preserves_bind_self. intros s.
  apply session_bind; [|intros _]; by apply emit_session.
Qed.

Lemma okx_on_open_session interval inst_id :
  preserves session_ok (okx_on_open interval inst_id).
Proof.
  unfold okx_on_open. apply preserves_bind_self. intros s.
  apply session_bind; [|intros _]; by apply emit_session.
Qed.

Lemma binance_on_open_session : preserves session_ok binance_on_open.
Proof.
  unfold binance_on_open. apply preserves_bind_self. intros s.
  by apply emit_session.
Qed.

Lemma on_event_session ev : preserves session_ok (on_event ev).
Proof.
  unfold on_event. apply preserves_bind_self. intros s.
  destruct (ws s) as [app|]; [|apply session_ok_refl].
  destruct (app_handlers app) as [interval| |interval inst_id], ev as [|m| |];
    try apply session_ok_refl.
  - apply bybit_on_open_session.
  - eapply live_step_session, bybit_on_message_live.
  - by apply emit_session.
  - apply bybit_on_close_session.
  - apply binance_on_open_session.
  - eapply live_step_session, binance_on_message_live.
  - apply okx_on_open_session.
  - eapply live_step_session, okx_on_message_live.
Qed.

Lemma stop_session : preserves session_ok stop.
Proof.
  intros s. destruct (stop_frame s) as (Hr & Hc & _).
  split; [by rewrite Hc|]. intros _. split; [assumption|].
  rewrite stop_trace, !connects_app, !sleeps_app, connects_save, sleeps_save.
  unfold close_effects. destruct (ws s); simpl; by rewrite !app_nil_r.
Qed.

Lemma do_step_session x : preserves session_ok (do_step x).
Proof. destruct x; [apply on_event_session|apply stop_session]. Qed.

Lemma run_session_ok steps : preserves session_ok (run_session steps).
Proof.
  unfold run_session.
  apply preserves_for; [apply session_ok_refl|apply session_ok_trans|].
  intros x _. apply do_step_session.
Qed.

(** The handlers and [stop] never raise: a session runs to the end of its
    steps. *)
Lemma try_except_ok (body : Py unit) s :
  outcome (try_except body (fun e => emit (Console (MessageErrorLine e)))) s = Ok ().
Proof. unfold outcome. py_unfold. destruct (body s) as [s' [[]|e]]; reflexivity. Qed.

Lemma on_event_ok ev s : outcome (on_event ev) s = Ok ().
Proof.
  unfold outcome, on_event. py_unfold.
  destruct (ws s) as [app|]; [|reflexivity].
  destruct (app_handlers app) as [interval| |interval inst_id], ev as [|m| |];
    try reflexivity;
    try apply (try_except_ok _ s).
  rewrite bybit_on_close_eq. by destruct (running s).
Qed.

Lemma do_step_ok x s : outcome (do_step x) s = Ok ().
Proof. destruct x; [apply on_event_ok|apply stop_ok]. Qed.

Lemma run_session_cons x steps s :
  exec (run_session (x :: steps)) s = exec (run_session steps) (exec (do_step x) s).
Proof.
  pose proof (do_step_ok x s) as H. unfold exec, outcome, run_session in *. simpl.
  py_unfold. destruct (do_step x s) as [s' r]. simpl in *. by subst.
Qed.


(** ** Sorting *)

Lemma insert_by_hdrel {A} (key : A → Z) (a x : A) (l : list A) :
  key a <= key x → HdRel Z.le (key a) (key <$> l) →
  HdRel Z.le (key a) (key <$> insert_by key x l).
Proof.
  destruct l as [|y l]; simpl; intros Hax Hhd.
  - by constructor.
  - destruct (key x <=? key y); simpl; constructor; [assumption|].
    by inversion Hhd.
Qed.

Lemma insert_by_sorted {A} (key : A → Z) (x : A) (l : list A) :
  Sorted Z.le (key <$> l) → Sorted Z.le (key <$> insert_by key x l).
Proof.
  induction l as [|y l IH]; simpl; intros Hs.
  - repeat constructor.
  - destruct (key x <=? key y) eqn:E; simpl.
    + constructor; [assumption|]. constructor. lia.
    + inversion Hs; subst. constructor; [by apply IH|].
      apply insert_by_hdrel; [lia|assumption].
Qed.

Lemma insert_by_perm {A} (key : A → Z) (x : A) (l : list A) :
  insert_by key x l ≡ₚ x :: l.
Proof.
  induction l as [|y l IH]; simpl; [reflexivity|].
  destruct (key x <=? key y); [reflexivity|].
  rewrite IH. apply perm_swap.
Qed.

Lemma py_sorted_sorted {A} (key : A → Z) (l : list A) :
  Sorted Z.le (key <$> py_sorted key l).
Proof.
  induction l as [|x l IH]; simpl; [constructor|]. by apply insert_by_sorted.
Qed.

Lemma py_sorted_perm {A} (key : A → Z) (l : list A) : py_sorted key l ≡ₚ l.
Proof.
  induction l as [|x l IH]; simpl; [reflexivity|].
  by rewrite insert_by_perm, IH.
Qed.

(** ** The fetchers *)

Lemma mapM_ok {A B} (f : A → result B) (l : list A) (k : list B) :
  mapM f l = Ok k → Forall2 (fun x y => f x = Ok y) l k.
Proof.
  revert k. induction l as [|x l IH]; simpl; intros k H.
  - inversion H. constructor.
  - unfold mbind, result_bind, mret, result_ret in *.
    destruct (f x) as [y|] eqn:Ef; [|discriminate].
    destruct (mapM f l) as [k'|]; [|discriminate].
    inversion H; subst. constructor; auto.
Qed.

Lemma historical_candles_ok klines cs :
  historical_candles klines = Ok cs →
  ∃ ks, py_iter klines = Ok ks ∧ length cs = length ks ∧
        Forall (fun c => confirmed c = None) cs.
Proof.
  unfold historical_candles, mbind, result_bind. intros H.
  destruct (py_iter klines) as [ks|]; [|discriminate].
  exists ks. split; [reflexivity|]. apply mapM_ok in H. split.
  - symmetry. by eapply Forall2_length.
  - induction H; constructor; [by eapply historical_candle_unconfirmed|assumption].
Qed.

Lemma _fetch_bybit_historical_eq limit s :
  _fetch_bybit_historical limit s =
    (add_effect (HttpGet (rest_url bybit_cfg) (bybit_params s limit)) s,
     data ← requests_get (rest_url bybit_cfg) (bybit_params s limit);
     klines ← bybit_klines data;
     cs ← historical_candles klines;
     mret (py_sorted timestamp cs)).
Proof.
  unfold _fetch_bybit_historical, http_get. py_unfold. simpl.
  unfold mbind, result_bind, mret, result_ret.
  destruct (requests_get _ _) as [data|]; simpl; [|reflexivity].
  destruct (bybit_klines data) as [klines|]; simpl; [|reflexivity].
  destruct (historical_candles klines); reflexivity.
Qed.

Lemma _fetch_binance_historical_eq limit s :
  _fetch_binance_historical limit s =
    (add_effect (HttpGet (rest_url binance_cfg) (binance_params s limit)) s,
     data ← requests_get (rest_url binance_cfg) (binance_params s limit);
     historical_candles data).
Proof.
  unfold _fetch_binance_historical, http_get. py_unfold. simpl.
  unfold mbind, result_bind, mret, result_ret.
  destruct (requests_get _ _) as [data|]; simpl; [|reflexivity].
  destruct (historical_candles data); reflexivity.
Qed.

Lemma _fetch_okx_historical_eq limit s :
  _fetch_okx_historical limit s =
    (add_effect (HttpGet (rest_url okx_cfg) (okx_params s limit)) s,
     data ← requests_get (rest_url okx_cfg) (okx_params s limit);
     klines ← okx_klines data;
     cs ← historical_candles klines;
     mret (py_sorted timestamp cs)).
Proof.
  unfold _fetch_okx_historical, http_get. py_unfold. simpl.
  unfold mbind, result_bind, mret, result_ret.
  destruct (requests_get _ _) as [data|]; simpl; [|reflexivity].
  destruct (okx_klines data) as [klines|]; simpl; [|reflexivity].
  destruct (historical_candles klines); reflexivity.
Qed.

Lemma fetch_historical_eq limit s :
  fetch_historical limit s =
    let s1 := foldl (fun s e => add_effect e s) s
                (Console (FetchingLine limit (timeframe s) (exchange s))
                   :: fetch_effects s limit) in
    match fetch_result s limit with
    | Ok data =>
        (add_effect (Console (LoadedLine (len data)))
           (exec (_save_csv "historical") (set_candles data s1)), Ok data)
    | Raise e => (add_effect (Console (HistoricalErrorLine e)) s1, Ok [])
    end.
Proof.
  unfold fetch_historical. py_unfold. simpl.
  unfold fetch_result, fetch_effects, fetch_request.
  destruct (String.eqb (exchange s) "bybit") eqn:E1; simpl.
  { rewrite _fetch_bybit_historical_eq. simpl.
    change (bybit_params (add_effect ?e s) limit) with (bybit_params s limit).
    match goal with |- context [match ?r with Ok _ => _ | Raise _ => _ end] =>
      destruct r end; simpl; [rewrite _save_csv_eq|]; reflexivity. }
  destruct (String.eqb (exchange s) "binance") eqn:E2; simpl.
  { rewrite _fetch_binance_historical_eq. simpl.
    change (binance_params (add_effect ?e s) limit) with (binance_params s limit).
    match goal with |- context [match ?r with Ok _ => _ | Raise _ => _ end] =>
      destruct r end; simpl; [rewrite _save_csv_eq|]; reflexivity. }
  destruct (String.eqb (exchange s) "okx") eqn:E3; simpl.
  { rewrite _fetch_okx_historical_eq. simpl.
    change (okx_params (add_effect ?e s) limit) with (okx_params s limit).
    match goal with |- context [match ?r with Ok _ => _ | Raise _ => _ end] =>
      destruct r end; simpl; [rewrite _save_csv_eq|]; reflexivity. }
  reflexivity.
Qed.

Lemma fetch_historical_outcome limit s :
  outcome (fetch_historical limit) s =
    Ok (match fetch_result s limit with Ok data => data | Raise _ => [] end).
Proof.
  unfold outcome. rewrite fetch_historical_eq. simpl.
  by destruct (fetch_result s limit).
Qed.

Lemma fetch_historical_trace limit s :
  ∃ rest, trace (exec (fetch_historical limit) s) =
            trace s ++ [Console (FetchingLine limit (timeframe s) (exchange s))]
              ++ fetch_effects s limit ++ rest ∧
          http_requests rest = [].
Proof.
  unfold exec. rewrite fetch_historical_eq. cbv zeta.
  assert (Hfold : ∀ l t, trace (foldl (fun s e => add_effect e s) t l) = trace t ++ l).
  { induction l as [|e l IH]; intros t; simpl; [by rewrite app_nil_r|].
    rewrite IH. simpl. by rewrite <- app_assoc. }
  destruct (fetch_result s limit) as [data|e]; cbn [fst trace add_effect].
  - rewrite _save_csv_trace. cbn [trace set_candles]. rewrite Hfold.
    eexists. split; [rewrite <- !app_assoc; reflexivity|].
    unfold save_effects. by destruct (candles _).
  - rewrite Hfold. eexists. split; [rewrite <- !app_assoc; reflexivity|].
    reflexivity.
Qed.

Lemma fetch_result_ok s limit cs :
  fetch_result s limit = Ok cs →
  Forall (fun c => confirmed c = None) cs ∧
  (String.eqb (exchange s) "binance" = false → Sorted Z.le (timestamp <$> cs)) ∧
  ∃ data ks,
    requests_get (fetch_request s limit).1 (fetch_request s limit).2 = Ok data ∧
    response_klines (exchange s) data = Ok ks ∧ length cs = length ks.
Proof.
  unfold fetch_result, fetch_request, response_klines.
  destruct (String.eqb (exchange s) "bybit") eqn:E1;
    [|destruct (String.eqb (exchange s) "binance") eqn:E2;
      [|destruct (String.eqb (exchange s) "okx") eqn:E3; [|discriminate]]];
    unfold mbind, result_bind, mret, result_ret; simpl; intros H.
  - destruct (requests_get _ _) as [data|] eqn:Er; [|discriminate].
    destruct (bybit_klines data) as [klines|] eqn:Ek; [|discriminate].
    destruct (historical_candles klines) as [cs0|] eqn:Eh; [|discriminate].
    inversion H; subst. clear H.
    destruct (historical_candles_ok _ _ Eh) as (ks & Hit & Hlen & Hall).
    split; [by rewrite py_sorted_perm|]. split; [intros _; apply py_sorted_sorted|].
    exists data, ks. rewrite Ek. split; [reflexivity|]. split; [exact Hit|].
    by rewrite (Permutation_length (py_sorted_perm timestamp cs0)).
  - destruct (requests_get _ _) as [data|] eqn:Er; [|discriminate].
    destruct (historical_candles_ok _ _ H) as (ks & Hit & Hlen & Hall).
    split; [assumption|]. split; [discriminate|].
    exists data, ks. split; [reflexivity|]. split; [exact Hit|exact Hlen].
  - destruct (requests_get _ _) as [data|] eqn:Er; [|discriminate].
    destruct (okx_klines data) as [klines|] eqn:Ek; [|discriminate].
    destruct (historical_candles klines) as [cs0|] eqn:Eh; [|discriminate].
    inversion H; subst. clear H.
    destruct (historical_candles_ok _ _ Eh) as (ks & Hit & Hlen & Hall).
    split; [by rewrite py_sorted_perm|]. split; [intros _; apply py_sorted_sorted|].
    exists data, ks. rewrite Ek. split; [reflexivity|]. split; [exact Hit|].
    by rewrite (Permutation_length (py_sorted_perm timestamp cs0)).
Qed.

(** The fetcher of each exchange, stage by stage: the request, the klines
    of the body, one candle per kline, and the sort on bybit and okx. *)
Lemma fetch_result_stages s limit :
  exchange s ∈ ["bybit"; "binance"; "okx"] →
  fetch_result s limit =
    match requests_get (fetch_request s limit).1 (fetch_request s limit).2 with
    | Raise e => Raise e
    | Ok data =>
        match response_klines (exchange s) data with
        | Raise e => Raise e
        | Ok ks =>
            match mapM historical_candle ks with
            | Raise e => Raise e
            | Ok parsed =>
                Ok (if String.eqb (exchange s) "binance" then parsed
                    else py_sorted timestamp parsed)
            end
        end
    end.
Proof.
  intros Hex.
  unfold fetch_result, fetch_request, response_klines, historical_candles.
  repeat (apply elem_of_cons in Hex as [->|Hex]);
    [| | |by apply elem_of_nil in Hex]; simpl;
    unfold mbind, result_bind, mret, result_ret;
    destruct (requests_get _ _) as [data|]; try reflexivity.
  - destruct (bybit_klines data) as [kl|]; [|reflexivity].
    destruct (py_iter kl) as [ks|]; [|reflexivity].
    by destruct (mapM historical_candle ks).
  - destruct (py_iter data) as [ks|]; [|reflexivity].
    by destruct (mapM historical_candle ks).
  - destruct (okx_klines data) as [kl|]; [|reflexivity].
    destruct (py_iter kl) as [ks|]; [|reflexivity].
    by destruct (mapM historical_candle ks).
Qed.

Lemma fetch_historical_candles limit s :
  candles (exec (fetch_historical limit) s) =
    match fetch_result s limit with
    | Ok data => data
    | Raise _ => candles s
    end.
Proof.
  unfold exec. rewrite fetch_historical_eq. cbv zeta.
  assert (Hfold : ∀ l t, candles (foldl (fun s e => add_effect e s) t l) = candles t).
  { induction l as [|e l IH]; intros t; simpl; [reflexivity|]. by rewrite IH. }
  destruct (fetch_result s limit) as [data|e]; cbn [fst candles add_effect].
  - by rewrite (proj1 (_save_csv_frame "historical" _)).
  - apply Hfold.
Qed.

(** * Main results *)

(** ** Reconnection *)

(** C1 (as the code behaves on Binance and OKX): the applications of
    [_start_binance_ws] and [_start_okx_ws] are built without an
    [on_close] handler, so when the transport closes while the session is
    still running nothing happens at all: no pause, no new socket, no
    subscription.  The run loop returns and so does [start_live]. *)
Theorem close_without_handler_does_not_reconnect
    (sym tf dir : string) (cb : option (candle → result unit)) :
  let binance := exec (start_live cb) (__init__ sym tf "binance" dir) in
  let okx := exec (start_live cb) (__init__ sym tf "okx" dir) in
  running binance = true ∧ on_event Closed binance = (binance, Ok ()) ∧
  running okx = true ∧ on_event Closed okx = (okx, Ok ()).
Proof. repeat split; reflexivity. Qed.

(** The Bybit application does have an [on_close]: a close while the
    session is running prints two lines, sleeps 5 seconds and starts a new
    application on the same endpoint; when that one opens, the subscription
    sent is the one the first application sent.  The session is then in
    the same situation again, so this repeats at every close. *)
Theorem bybit_close_while_running_reconnects (s : Streamer) :
  ws s = Some {| app_url := ws_url bybit_cfg;
                 app_handlers := BybitHandlers (bybit_interval (timeframe s)) |} →
  running s = true →
  let subscription := bybit_subscribe (bybit_interval (timeframe s)) (symbol s) in
  let s1 := exec (on_event Closed) s in
  let s2 := exec (on_event Opened) s1 in
  trace (exec (on_event Opened) s) =
    trace s ++ [Console (ConnectedLine "Bybit" (timeframe s) (symbol s));
                WsSend subscription] ∧
  trace s1 = trace s ++ [Console ClosedLine; Console ReconnectingLine; Sleep 5;
                         RunForever (ws_url bybit_cfg)] ∧
  trace s2 = trace s1 ++ [Console (ConnectedLine "Bybit" (timeframe s) (symbol s));
                          WsSend subscription] ∧
  ws s1 = ws s ∧ running s1 = true ∧ timeframe s1 = timeframe s ∧
  symbol s1 = symbol s ∧ candles s1 = candles s.
Proof.
  intros Hws Hrun.
  assert (Hopen : ∀ t, ws t = ws s → symbol t = symbol s → timeframe t = timeframe s →
            trace (exec (on_event Opened) t) =
              trace t ++ [Console (ConnectedLine "Bybit" (timeframe s) (symbol s));
                          WsSend (bybit_subscribe (bybit_interval (timeframe s)) (symbol s))]).
  { intros t Ht Hsym Htf. unfold exec, on_event. py_unfold. simpl.
    rewrite Ht, Hws. simpl. rewrite <- app_assoc, Hsym, Htf. reflexivity. }
  assert (Hclose : exec (on_event Closed) s =
            add_effect (RunForever (ws_url bybit_cfg))
              (set_ws {| app_url := ws_url bybit_cfg;
                         app_handlers := BybitHandlers (bybit_interval (timeframe s)) |}
                 (add_effect (Sleep 5)
                    (add_effect (Console ReconnectingLine)
                       (add_effect (Console ClosedLine) s))))).
  { unfold exec, on_event. py_unfold. simpl.
    by rewrite Hws, bybit_on_close_eq, Hrun. }
  cbv zeta. rewrite Hclose. repeat split.
  - by apply Hopen.
  - simpl. by rewrite <- !app_assoc.
  - rewrite Hopen; simpl; [reflexivity|by rewrite Hws|reflexivity|reflexivity].
  - simpl. by rewrite Hws.
  - simpl. assumption.
Qed.

(** Once [stop()] has been called, whatever the socket does afterwards: the
    session stays stopped, no socket is opened and no pause is taken.  This
    holds on every exchange. *)
Theorem stopped_session_never_reconnects (s : Streamer) (steps : list session_step) :
  let s' := exec (run_session (CallStop :: steps)) s in
  running s' = false ∧ connects (trace s') = connects (trace s) ∧
  sleeps (trace s') = sleeps (trace s).
Proof.
  simpl. rewrite run_session_cons. simpl.
  destruct (run_session_ok steps (exec stop s)) as [_ H].
  destruct (stop_session s) as [_ H0].
  destruct (stop_frame s) as (Hr & _).
  destruct (H Hr) as (R & C & S). split; [assumption|].
  rewrite C, S, stop_trace, !connects_app, !sleeps_app, connects_save, sleeps_save.
  unfold close_effects. destruct (ws s); simpl; by rewrite !app_nil_r.
Qed.

(** ** Checkpoints *)

(** When the observer (if any) returns normally, [_process_candle]
    returns normally and hands the timeline to [to_csv] under the label
    [live] exactly when the length of the timeline is a multiple of 100;
    it writes nothing else. *)
Lemma _process_candle_checkpoint (c : candle) (s : Streamer) :
  observer_returns c s →
  let s' := exec (_process_candle c) s in
  outcome (_process_candle c) s = Ok () ∧
  ∃ new, trace s' = trace s ++ new ∧
    ((csv_filename s "live", candles s') ∈ csv_writes new ↔
     len (candles s') `mod` 100 = 0) ∧
    (∀ w, w ∈ csv_writes new → w = (csv_filename s "live", candles s')).
Proof.
  intros Hobs. destruct (_process_candle_returns c s Hobs) as [Hok Htr].
  cbv zeta in *. split; [assumption|]. eexists. split; [exact Htr|].
  destruct (_process_candle_frame c s) as (_ & _ & _ & E1 & E2 & E3 & _).
  pose proof (_process_candle_nonempty c s) as Hne.
  assert (Hw : csv_writes (observer_effects c s) = []).
  { unfold observer_effects. by destruct (on_candle_callback s). }
  rewrite !csv_writes_app, Hw. change (csv_writes [Console (CandleLine c)]) with
    (@nil (string * list candle)). rewrite !app_nil_l.
  assert (Hf : csv_filename (exec (_process_candle c) s) "live" = csv_filename s "live").
  { unfold csv_filename. by rewrite E1, E2, E3. }
  destruct (len (candles (exec (_process_candle c) s)) `mod` 100 =? 0) eqn:E.
  - rewrite csv_writes_save. unfold saved_rows. rewrite Hf.
    destruct (candles (exec (_process_candle c) s)) eqn:Ec; [done|].
    split.
    + split; [intros _; lia|intros _; left].
    + intros w Hw'. by apply list_elem_of_singleton in Hw'.
  - simpl. split.
    + split; [intros H; inversion H|lia].
    + intros w H. inversion H.
Qed.

(** When the observer raises, the exception leaves [_process_candle]
    before the checkpoint: the candle is in the timeline, nothing is
    written. *)
Lemma observer_raises_no_checkpoint c s f e :
  on_candle_callback s = Some f → f c = Raise e →
  outcome (_process_candle c) s = Raise e ∧
  csv_writes (trace (exec (_process_candle c) s)) = csv_writes (trace s).
Proof.
  intros Hf He. destruct (_process_candle_raises c s f e Hf He) as [-> ->].
  split; [reflexivity|]. rewrite csv_writes_app. simpl. by rewrite app_nil_r.
Qed.

(** C8 (amended): [_process_candle] leaves as timeline the previous
    timeline with the candle appended, cut to its last 10,000 entries.
    When the observer (if any) returns normally, [_process_candle] returns
    normally and hands that timeline to [to_csv] under the label [live]
    exactly when its length is a multiple of 100, and writes nothing else.
    When the observer raises, the exception leaves [_process_candle]
    before the length is tested: nothing is written, whatever the length.
    The test reads the length of the buffer: the object holds no
    counter. *)
Theorem live_checkpoint_iff_length_multiple_of_100 (c : candle) (s : Streamer) :
  let s' := exec (_process_candle c) s in
  candles s' = py_last_n 10000 (candles s ++ [c]) ∧
  ∃ new, trace s' = trace s ++ new ∧
    (observer_returns c s →
     outcome (_process_candle c) s = Ok () ∧
     ((csv_filename s "live", candles s') ∈ csv_writes new ↔
      len (candles s') `mod` 100 = 0) ∧
     (∀ w, w ∈ csv_writes new → w = (csv_filename s "live", candles s'))) ∧
    (∀ f e, on_candle_callback s = Some f → f c = Raise e →
            outcome (_process_candle c) s = Raise e ∧ csv_writes new = []).
Proof.
  cbv zeta. split; [apply _process_candle_candles|].
  destruct (on_candle_callback s) as [f|] eqn:Ef;
    [destruct (f c) as [[]|e] eqn:Efc|].
  - assert (Hobs : observer_returns c s).
    { intros g Hg. rewrite Ef in Hg. by injection Hg as <-. }
    destruct (_process_candle_checkpoint c s Hobs) as (Hok & new & Htr & Hiff & Hall).
    exists new. split; [exact Htr|]. split; [done|].
    intros g e Hg Hgc. injection Hg as <-. congruence.
  - destruct (_process_candle_raises c s f e Ef Efc) as [Hout Htr].
    eexists. split; [exact Htr|]. split.
    + intros Hobs. specialize (Hobs f Ef). congruence.
    + intros g e' Hg Hgc. injection Hg as <-.
      split; [congruence|reflexivity].
  - assert (Hobs : observer_returns c s).
    { intros g Hg. rewrite Ef in Hg. discriminate Hg. }
    destruct (_process_candle_checkpoint c s Hobs) as (Hok & new & Htr & Hiff & Hall).
    exists new. split; [exact Htr|]. split; [done|].
    intros g e Hg. discriminate Hg.
Qed.

(** C6 (amended): [stop] returns normally, clears the running flag, calls
    [close()] on the socket application when there is one, and hands the
    timeline to [to_csv] under the label [final] when the timeline is not
    empty; on an empty timeline [_save_csv] returns before writing, so no
    final snapshot is written. *)
Theorem stop_writes_final_checkpoint_unless_empty (s : Streamer) :
  let s' := exec stop s in
  outcome stop s = Ok () ∧ running s' = false ∧ candles s' = candles s ∧
  ∃ new, trace s' = trace s ++ new ∧
    (WsCloseCall ∈ new ↔ is_Some (ws s)) ∧
    csv_writes new =
      match candles s with
      | [] => []
      | _ :: _ => [(csv_filename s "final", candles s)]
      end.
Proof.
  destruct (stop_frame s) as (Hr & Hc & _). cbv zeta.
  split; [apply stop_ok|]. split; [assumption|]. split; [assumption|].
  exists (close_effects s ++ save_effects "final" s).
  split; [apply stop_trace|]. split.
  - assert (Hsave : WsCloseCall ∈ save_effects "final" s → False).
    { unfold save_effects. destruct (candles s); intros H;
        repeat (apply elem_of_cons in H as [H|H]; [discriminate H|]);
        by apply elem_of_nil in H. }
    rewrite elem_of_app. unfold close_effects. destruct (ws s).
    + split; [by eexists|intros _; left; left].
    + split; [intros [H|H]; [by apply elem_of_nil in H|by apply Hsave in H]|].
      intros [x Hx]. discriminate Hx.
  - by rewrite csv_writes_app, csv_writes_close, csv_writes_save.
Qed.

(** C7 (amended): two calls of [stop] in a row both return normally, and
    the second leaves the running flag, the timeline, the socket handle and
    the snapshot files as the first left them.  Each call on a non-empty
    timeline hands the same rows to [to_csv] under the same [final] file
    name (two writes of one file); on an empty timeline neither call writes
    anything. *)
Theorem stop_twice_rewrites_the_same_snapshot (s : Streamer) :
  let s1 := exec stop s in
  let s2 := exec stop s1 in
  outcome stop s = Ok () ∧ outcome stop s1 = Ok () ∧
  running s2 = running s1 ∧ candles s2 = candles s1 ∧ ws s2 = ws s1 ∧
  snapshots (trace s2) = snapshots (trace s1) ∧
  csv_writes (trace s2) =
    csv_writes (trace s) ++
      match candles s with
      | [] => []
      | _ :: _ => [(csv_filename s "final", candles s);
                   (csv_filename s "final", candles s)]
      end.
Proof.
  cbv zeta.
  destruct (stop_frame s) as (Hr & Hc & Hw & _ & Hsy & Htf & Hod & _).
  destruct (stop_frame (exec stop s)) as (Hr' & Hc' & Hw' & _).
  assert (Hfn : csv_filename (exec stop s) "final" = csv_filename s "final").
  { unfold csv_filename. by rewrite Hsy, Htf, Hod. }
  assert (Hcl : close_effects (exec stop s) = close_effects s).
  { unfold close_effects. by rewrite Hw. }
  assert (Hsv : save_effects "final" (exec stop s) = save_effects "final" s).
  { unfold save_effects. by rewrite Hfn, Hc. }
  split; [apply stop_ok|]. split; [apply stop_ok|].
  split; [congruence|]. split; [assumption|]. split; [assumption|].
  rewrite (stop_trace (exec stop s)), Hcl, Hsv, (stop_trace s). split.
  - rewrite (snapshots_app (trace s ++ _)), (snapshots_app (trace s)).
    rewrite !foldl_app.
    unfold close_effects, save_effects.
    destruct (ws s), (candles s); cbn [foldl app]; try reflexivity;
      apply insert_insert_eq.
  - rewrite !csv_writes_app, !csv_writes_close, !csv_writes_save.
    unfold saved_rows. destruct (candles s); simpl;
      rewrite ?app_nil_r, <- ?app_assoc; reflexivity.
Qed.

(** ** Live messages *)


(** Whatever the message, when the test of the Bybit handler does not
    succeed the handler returns normally and changes nothing, except for
    one error line on the console when the test itself raised. *)
Lemma bybit_rejected_message interval m s :
  (∀ data, json_loads m = Ok data → bybit_accepts interval data ≠ Ok true) →
  outcome (bybit_on_message interval m) s = Ok () ∧
  (exec (bybit_on_message interval m) s = s ∨
   ∃ e, exec (bybit_on_message interval m) s =
          add_effect (Console (MessageErrorLine e)) s).
Proof.
  intros H. split; [apply try_except_ok|].
  unfold exec, bybit_on_message. py_unfold.
  destruct (json_loads m) as [data|e] eqn:Em; simpl; [|right; by exists e].
  specialize (H data eq_refl).
  destruct (bybit_accepts interval data) as [[]|e]; simpl;
    [done|by left|right; by exists e].
Qed.

(** C10: whatever the message, the OKX handler returns normally, and
    every candle it adds to the timeline, prints or passes to the observer
    carries [confirmed = True]; the kline it was built from is read at
    positions 0 to 5 only, so nothing the exchange says about the state of
    the bar reaches the flag. *)
Theorem okx_live_candles_always_confirmed (m : message) (s : Streamer) :
  let s' := exec (okx_on_message m) s in
  outcome (okx_on_message m) s = Ok () ∧
  (∀ c, c ∈ candles s' → c ∈ candles s ∨ confirmed c = Some (JBool true)) ∧
  ∃ new, trace s' = trace s ++ new ∧
         Forall (fun c => confirmed c = Some (JBool true)) (shown new).
Proof.
  cbv zeta. split; [apply try_except_ok|].
  destruct (okx_on_message_live m s)
    as (_ & _ & _ & _ & _ & _ & _ & _ & Hin & new & Htr & _ & _ & Hall).
  split; [assumption|]. by exists new.
Qed.

(** ** The timeline buffer *)


(** ** Historical fetch *)

(** C5 (amended): a historical fetch always returns a list, and no candle
    of that list carries a [confirmed] key at all: the three fetchers build
    the candle with the six keys [timestamp], [open], [high], [low],
    [close] and [volume] only. *)
Theorem historical_candles_carry_no_confirmed_flag (limit : Z) (s : Streamer) :
  ∃ cs, outcome (fetch_historical limit) s = Ok cs ∧
        Forall (fun c => confirmed c = None) cs.
Proof.
  eexists. split; [apply fetch_historical_outcome|].
  destruct (fetch_result s limit) as [cs|] eqn:E; [|constructor].
  by apply fetch_result_ok in E as [H _].
Qed.

(** C2 (amended): on each of the three exchanges [fetch_historical(limit)]
    never raises and sends one request, whose [limit] parameter is
    [min(limit, cap)] with the cap 1000 for bybit, 1500 for binance and 300
    for okx.  When the request succeeds, the body holds the klines and
    every kline parses, the list returned holds the candles of the klines,
    one per kline; when the request, the body or a kline fails, the list
    returned is empty.  On bybit and okx the list returned is sorted
    non-decreasing by timestamp.  Nothing is cut on the client side, so
    the length is at most [min(limit, cap)] when the response holds at
    most that many klines. *)
Theorem fetch_historical_sorted_one_candle_per_kline (limit : Z) (s : Streamer) :
  exchange s ∈ ["bybit"; "binance"; "okx"] →
  let request := fetch_request s limit in
  let cap := Z.min limit (page_cap (exchange s)) in
  let response := requests_get request.1 request.2 in
  ∃ cs rest,
    outcome (fetch_historical limit) s = Ok cs ∧
    trace (exec (fetch_historical limit) s) =
      trace s ++ [Console (FetchingLine limit (timeframe s) (exchange s));
                  HttpGet request.1 request.2] ++ rest ∧
    http_requests rest = [] ∧
    dict_lookup "limit" request.2 = Some (JInt cap) ∧
    (exchange s ≠ "binance" → Sorted Z.le (timestamp <$> cs)) ∧
    (∀ data ks parsed,
       response = Ok data →
       response_klines (exchange s) data = Ok ks →
       mapM historical_candle ks = Ok parsed →
       cs ≡ₚ parsed ∧ length cs = length ks) ∧
    (∀ e, response = Raise e → cs = []) ∧
    (∀ data e,
       response = Ok data →
       response_klines (exchange s) data = Raise e → cs = []) ∧
    (∀ data ks e,
       response = Ok data →
       response_klines (exchange s) data = Ok ks →
       mapM historical_candle ks = Raise e → cs = []) ∧
    (∀ data ks, response = Ok data →
                response_klines (exchange s) data = Ok ks →
                len ks <= cap → len cs <= cap).
Proof.
  intros Hex. cbv zeta.
  destruct (fetch_historical_trace limit s) as (rest & Htr & Hrest).
  exists (match fetch_result s limit with Ok data => data | Raise _ => [] end), rest.
  split; [apply fetch_historical_outcome|].
  assert (Heff : fetch_effects s limit =
                 [HttpGet (fetch_request s limit).1 (fetch_request s limit).2]).
  { unfold fetch_effects.
    repeat (apply elem_of_cons in Hex as [->|Hex]; [reflexivity|]).
    by apply elem_of_nil in Hex. }
  split; [by rewrite Htr, Heff|]. split; [assumption|]. split.
  { unfold fetch_request, page_cap.
    repeat (apply elem_of_cons in Hex as [->|Hex]; [reflexivity|]).
    by apply elem_of_nil in Hex. }
  pose proof (fetch_result_stages s limit Hex) as Hst.
  split; [|split; [|split; [|split; [|split]]]].
  - intros Hne. destruct (fetch_result s limit) as [cs|e] eqn:E; [|constructor].
    apply (fetch_result_ok _ _ _ E). by apply String.eqb_neq.
  - intros data ks parsed Hreq Hks Hparsed.
    rewrite Hreq, Hks, Hparsed in Hst. rewrite Hst.
    assert (Hlen : length parsed = length ks).
    { apply mapM_ok in Hparsed. symmetry. by apply Forall2_length in Hparsed. }
    destruct (String.eqb (exchange s) "binance").
    + by split.
    + split; [apply py_sorted_perm|].
      by rewrite (Permutation_length (py_sorted_perm timestamp parsed)).
  - intros e Hreq. by rewrite Hst, Hreq.
  - intros data e Hreq Hks. by rewrite Hst, Hreq, Hks.
  - intros data ks e Hreq Hks Hparsed. by rewrite Hst, Hreq, Hks, Hparsed.
  - intros data ks Hreq Hks Hle.
    destruct (fetch_result s limit) as [cs|e] eqn:E.
    + destruct (fetch_result_ok _ _ _ E) as (_ & _ & data' & ks' & Hreq' & Hks' & Hlen).
      rewrite Hreq in Hreq'. inversion Hreq'; subst.
      rewrite Hks in Hks'. inversion Hks'; subst.
      unfold len in *. lia.
    + unfold len in *. simpl. lia.
Qed.

(** ** Interval codes *)

(** C9: a timeframe missing from the interval table of an exchange is
    looked up as the default the call sites pass, ["1"] on bybit and
    ["1m"] on binance and okx; and each of [1m], [5m], [15m], [1h], [4h],
    [1D] is looked up as its own entry of the table, on every exchange. *)
Theorem interval_lookup_falls_back_to_default (tf : string) :
  (intervals bybit_cfg !! tf = None → bybit_interval tf = "1") ∧
  (intervals binance_cfg !! tf = None → binance_interval tf = "1m") ∧
  (intervals okx_cfg !! tf = None → okx_interval tf = "1m") ∧
  (tf ∈ ["1m"; "5m"; "15m"; "1h"; "4h"; "1D"] →
   intervals bybit_cfg !! tf = Some (bybit_interval tf) ∧
   intervals binance_cfg !! tf = Some (binance_interval tf) ∧
   intervals okx_cfg !! tf = Some (okx_interval tf)).
Proof.
  unfold bybit_interval, binance_interval, okx_interval.
  repeat split; try (by intros ->).
  all: repeat (apply elem_of_cons in H as [->|H]; [by vm_compute|]);
    by apply elem_of_nil in H.
Qed.

End Properties.

(** * Further properties *)

Section MoreProperties.

Context {lib : Library}.

(** ** Historical fetch: failures *)

Lemma fetch_effects_no_csv s limit : csv_writes (fetch_effects s limit) = [].
Proof. unfold fetch_effects. by destruct (_ || _). Qed.

Lemma foldl_add_effect l t :
  foldl (fun s e => add_effect e s) t l =
    {| symbol := symbol t; timeframe := timeframe t; exchange := exchange t;
       output_dir := output_dir t; candles := candles t; ws := ws t;
       running := running t; on_candle_callback := on_candle_callback t;
       trace := trace t ++ l |}.
Proof.
  revert t. induction l as [|e l IH]; intros t; simpl.
  - rewrite app_nil_r. by destruct t.
  - rewrite IH. simpl. by rewrite <- app_assoc.
Qed.

Lemma fetch_result_raise_aborts limit s e :
  fetch_result s limit = Raise e → fetch_aborted limit s e.
Proof.
  intros H. unfold fetch_aborted, exec, outcome.
  rewrite fetch_historical_eq, H. cbv zeta. rewrite foldl_add_effect.
  cbn [fst snd candles running ws trace add_effect].
  repeat split.
  - change (Console (FetchingLine limit (timeframe s) (exchange s))
              :: fetch_effects s limit)
      with ([Console (FetchingLine limit (timeframe s) (exchange s))]
              ++ fetch_effects s limit).
    rewrite !csv_writes_app, fetch_effects_no_csv. simpl. by rewrite !app_nil_r.
  - by rewrite last_snoc.
Qed.

Lemma mapM_raise {A B} (f : A → result B) (l : list A) (x : A) (e : exn) :
  x ∈ l → f x = Raise e → ∃ e', mapM f l = Raise e'.
Proof.
  intros Hin Hx. induction l as [|y l IH]; [by apply elem_of_nil in Hin|].
  assert (Heq : mapM f (y :: l) =
                match f y with
                | Ok b => match mapM f l with
                          | Ok k => Ok (b :: k)
                          | Raise e1 => Raise e1
                          end
                | Raise e1 => Raise e1
                end) by reflexivity.
  rewrite Heq. destruct (f y) as [b|e1] eqn:Ey; [|by exists e1].
  apply elem_of_cons in Hin as [->|Hin]; [congruence|].
  destruct (IH Hin) as [e' ->]. by exists e'.
Qed.

Lemma response_klines_raise s limit data ks x e :
  exchange s ∈ ["bybit"; "binance"; "okx"] →
  requests_get (fetch_request s limit).1 (fetch_request s limit).2 = Ok data →
  response_klines (exchange s) data = Ok ks →
  x ∈ ks → historical_candle x = Raise e →
  ∃ e', fetch_result s limit = Raise e'.
Proof.
  intros Hex Hreq Hks Hin Hx.
  destruct (mapM_raise historical_candle ks x e Hin Hx) as [e' He'].
  exists e'. revert Hreq Hks.
  unfold fetch_result, fetch_request, response_klines, historical_candles.
  repeat (apply elem_of_cons in Hex as [->|Hex]);
    [| | |by apply elem_of_nil in Hex]; simpl;
    unfold mbind, result_bind in *; intros -> Hks.
  - destruct (bybit_klines data) as [kl|]; [|discriminate].
    rewrite Hks. cbn beta iota. by rewrite He'.
  - rewrite Hks. cbn beta iota. by rewrite He'.
  - destruct (okx_klines data) as [kl|]; [|discriminate].
    rewrite Hks. cbn beta iota. by rewrite He'.
Qed.

(** A historical batch is all or nothing: when one kline of the response,
    wherever it stands, cannot be turned into a candle, the fetch returns
    the empty list and keeps the timeline and the snapshot files as they
    were; the candles of the good klines are dropped with it. *)
Theorem malformed_kline_drops_the_whole_batch
    (limit : Z) (s : Streamer) (data : json) (ks : list json) (x : json) (e : exn) :
  exchange s ∈ ["bybit"; "binance"; "okx"] →
  requests_get (fetch_request s limit).1 (fetch_request s limit).2 = Ok data →
  response_klines (exchange s) data = Ok ks →
  x ∈ ks → historical_candle x = Raise e →
  ∃ e', fetch_aborted limit s e'.
Proof.
  intros Hex Hreq Hks Hin Hx.
  destruct (response_klines_raise s limit data ks x e Hex Hreq Hks Hin Hx) as [e' He'].
  exists e'. by apply fetch_result_raise_aborts.
Qed.


(** A failing request (network error, HTTP error status, undecodable
    body) aborts the fetch with the exception of the request. *)
Theorem failed_request_aborts_the_fetch (limit : Z) (s : Streamer) (e : exn) :
  exchange s ∈ ["bybit"; "binance"; "okx"] →
  requests_get (fetch_request s limit).1 (fetch_request s limit).2 = Raise e →
  fetch_aborted limit s e.
Proof.
  intros Hex Hreq. apply fetch_result_raise_aborts. revert Hreq.
  unfold fetch_result, fetch_request.
  repeat (apply elem_of_cons in Hex as [->|Hex]);
    [| | |by apply elem_of_nil in Hex]; simpl;
    unfold mbind, result_bind; by intros ->.
Qed.

(** ** An exchange the class does not know *)

(** For an exchange other than bybit, binance and okx, [fetch_historical]
    sends no request and aborts with a [ValueError], and [start_live] sets
    the running flag (and the observer) and returns at once: no socket
    application is built, nothing is printed, and no later socket event
    has any effect on the streamer. *)
Theorem unknown_exchange_runs_without_a_socket
    (limit : Z) (cb : option (candle → result unit)) (s : Streamer) :
  exchange s ∉ ["bybit"; "binance"; "okx"] →
  fetch_aborted limit s ValueError ∧
  http_requests (trace (exec (fetch_historical limit) s)) = http_requests (trace s) ∧
  start_live cb s = (set_on_candle_callback cb (set_running true s), Ok ()) ∧
  (ws s = None →
   ∀ ev, on_event ev (exec (start_live cb) s) = (exec (start_live cb) s, Ok ())).
Proof.
  intros Hex.
  assert (E1 : String.eqb (exchange s) "bybit" = false).
  { apply String.eqb_neq. intros H. apply Hex. rewrite H. left. }
  assert (E2 : String.eqb (exchange s) "binance" = false).
  { apply String.eqb_neq. intros H. apply Hex. rewrite H. right. left. }
  assert (E3 : String.eqb (exchange s) "okx" = false).
  { apply String.eqb_neq. intros H. apply Hex. rewrite H. do 2 right. left. }
  assert (Hres : fetch_result s limit = Raise ValueError).
  { unfold fetch_result. by rewrite E1, E2, E3. }
  assert (Hstart : start_live cb s = (set_on_candle_callback cb (set_running true s), Ok ())).
  { unfold start_live. py_unfold. simpl. by rewrite E1, E2, E3. }
  split; [by apply fetch_result_raise_aborts|]. split; [|split; [exact Hstart|]].
  - unfold exec. rewrite fetch_historical_eq, Hres. cbv zeta.
    rewrite foldl_add_effect. cbn [fst trace add_effect].
    unfold fetch_effects. rewrite E1, E2, E3. cbn [orb].
    unfold http_requests. rewrite !omap_app. simpl. by rewrite !app_nil_r.
  - intros Hws ev. unfold exec. rewrite Hstart. simpl.
    unfold on_event. py_unfold. simpl. by rewrite Hws.
Qed.

(** ** Historical fetch: success *)

Lemma fetch_result_success s limit data ks cs :
  exchange s ∈ ["bybit"; "binance"; "okx"] →
  requests_get (fetch_request s limit).1 (fetch_request s limit).2 = Ok data →
  response_klines (exchange s) data = Ok ks →
  mapM historical_candle ks = Ok cs →
  fetch_result s limit =
    Ok (if String.eqb (exchange s) "binance" then cs else py_sorted timestamp cs).
Proof.
  intros Hex Hreq Hks Hcs. revert Hreq Hks.
  unfold fetch_result, fetch_request, response_klines, historical_candles.
  repeat (apply elem_of_cons in Hex as [->|Hex]);
    [| | |by apply elem_of_nil in Hex]; simpl;
    unfold mbind, result_bind in *; intros -> Hks.
  - destruct (bybit_klines data) as [kl|]; [|discriminate].
    rewrite Hks. cbn beta iota. by rewrite Hcs.
  - rewrite Hks. cbn beta iota. by rewrite Hcs.
  - destruct (okx_klines data) as [kl|]; [|discriminate].
    rewrite Hks. cbn beta iota. by rewrite Hcs.
Qed.

(** When the request succeeds and every kline of the response parses,
    [fetch_historical] returns the candles of the klines, in response order
    on binance and sorted by timestamp (the same candles, reordered) on
    bybit and okx; the list returned replaces the timeline, whatever the
    timeline held, and is what the [historical] snapshot receives.  An
    empty response therefore empties the timeline, and writes no file. *)
Theorem successful_fetch_replaces_the_timeline
    (limit : Z) (s : Streamer) (data : json) (ks : list json) (cs : list candle) :
  exchange s ∈ ["bybit"; "binance"; "okx"] →
  requests_get (fetch_request s limit).1 (fetch_request s limit).2 = Ok data →
  response_klines (exchange s) data = Ok ks →
  mapM historical_candle ks = Ok cs →
  let s' := exec (fetch_historical limit) s in
  ∃ out, outcome (fetch_historical limit) s = Ok out ∧
    out ≡ₚ cs ∧
    out = (if String.eqb (exchange s) "binance" then cs else py_sorted timestamp cs) ∧
    candles s' = out ∧
    csv_writes (trace s') =
      csv_writes (trace s) ++
        match out with
        | [] => []
        | _ :: _ => [(csv_filename s "historical", out)]
        end ∧
    last (trace s') = Some (Console (LoadedLine (len out))).
Proof.
  intros Hex Hreq Hks Hcs. cbv zeta.
  pose proof (fetch_result_success s limit data ks cs Hex Hreq Hks Hcs) as Hres.
  eexists. split; [by rewrite fetch_historical_outcome, Hres|].
  split; [destruct (String.eqb _ _); [reflexivity|apply py_sorted_perm]|].
  split; [reflexivity|]. split; [by rewrite fetch_historical_candles, Hres|].
  unfold exec. rewrite fetch_historical_eq, Hres. cbv zeta.
  rewrite foldl_add_effect. cbn [fst trace add_effect].
  rewrite last_snoc. split; [|reflexivity].
  change (trace (_save_csv "historical" ?x).1) with
    (trace (exec (_save_csv "historical") x)).
  rewrite _save_csv_trace. cbn [trace set_candles].
  change (Console (FetchingLine limit (timeframe s) (exchange s))
            :: fetch_effects s limit)
    with ([Console (FetchingLine limit (timeframe s) (exchange s))]
            ++ fetch_effects s limit).
  rewrite !csv_writes_app, fetch_effects_no_csv, csv_writes_save.
  unfold saved_rows, csv_filename. cbn [candles symbol timeframe output_dir set_candles].
  simpl. rewrite !app_nil_r.
  by destruct (if String.eqb (exchange s) "binance" then cs else py_sorted timestamp cs).
Qed.

(** ** Checkpoints when the buffer is full *)

(** Once the timeline holds 9,999 candles or more, every further live
    candle leaves it at exactly 10,000, a multiple of 100: from then on
    each candle (whose observer returns) rewrites the whole [live]
    snapshot, and the throttle of one write per 100 candles is gone. *)
Theorem full_buffer_checkpoints_on_every_candle (c : candle) (s : Streamer) :
  9999 <= len (candles s) →
  observer_returns c s →
  let s' := exec (_process_candle c) s in
  len (candles s') = 10000 ∧
  csv_writes (trace s') = csv_writes (trace s) ++ [(csv_filename s "live", candles s')].
Proof.
  intros Hlen Hobs. cbv zeta.
  assert (Hl : len (candles (exec (_process_candle c) s)) = 10000).
  { rewrite _process_candle_candles, py_last_n_len by lia.
    unfold len in *. rewrite length_app. simpl. lia. }
  split; [assumption|].
  destruct (_process_candle_returns c s Hobs) as [_ Htr]. cbv zeta in Htr.
  rewrite Htr, Hl. change (10000 `mod` 100 =? 0) with true. cbn iota.
  assert (Hw : csv_writes (observer_effects c s) = []).
  { unfold observer_effects. by destruct (on_candle_callback s). }
  rewrite !csv_writes_app, Hw, csv_writes_save.
  destruct (_process_candle_frame c s) as (_ & _ & _ & E1 & E2 & E3 & _).
  unfold saved_rows, csv_filename. rewrite E1, E2, E3.
  destruct (candles (exec (_process_candle c) s)) eqn:Ec; [discriminate Hl|].
  reflexivity.
Qed.

(** ** Snapshot files *)

Lemma string_app_inv_head (a x y : string) : a +:+ x = a +:+ y → x = y.
Proof.
  induction a as [|ch a IH]; simpl; intros H; [assumption|].
  apply IH. by injection H.
Qed.

Lemma csv_filename_label s p q :
  csv_filename s p = csv_filename s q → p +:+ ".csv" = q +:+ ".csv".
Proof.
  unfold csv_filename. intros H.
  repeat (apply string_app_inv_head in H). exact H.
Qed.

Lemma snapshots_snoc tr e :
  snapshots (tr ++ [e]) =
    match e with
    | ToCsv filename rows => <[filename := rows]> (snapshots tr)
    | _ => snapshots tr
    end.
Proof. rewrite snapshots_app. reflexivity. Qed.

Lemma snapshots_other_files tr new f :
  Forall (fun w => w.1 ≠ f) (csv_writes new) →
  snapshots (tr ++ new) !! f = snapshots tr !! f.
Proof.
  induction new as [|e new IH] using rev_ind; intros H.
  - by rewrite app_nil_r.
  - rewrite csv_writes_app in H. apply Forall_app in H as [H1 H2].
    rewrite app_assoc, snapshots_snoc.
    destruct e; try by apply IH.
    simpl in H2. inversion H2; subst. simpl in *.
    rewrite lookup_insert_ne by done. by apply IH.
Qed.

Lemma _process_candle_writes_live c s :
  ∃ new, trace (exec (_process_candle c) s) = trace s ++ new ∧
         Forall (fun w => w.1 = csv_filename s "live") (csv_writes new).
Proof.
  unfold exec. rewrite _process_candle_eq.
  assert (Hlive : ∀ t, symbol t = symbol s → timeframe t = timeframe s →
            output_dir t = output_dir s →
            ∃ new, trace (live_checkpoint t) = trace t ++ new ∧
                   Forall (fun w => w.1 = csv_filename s "live") (csv_writes new)).
  { intros t E1 E2 E3. rewrite live_checkpoint_trace. eexists. split; [reflexivity|].
    destruct (_ =? 0); [|constructor].
    rewrite csv_writes_save. unfold saved_rows, csv_filename. rewrite E1, E2, E3.
    destruct (candles t); repeat constructor. }
  destruct (on_candle_callback s) as [f|]; [destruct (f c) as [[]|e]|]; cbn [fst].
  - destruct (Hlive (add_effect (Observer c) (shows c s)) eq_refl eq_refl eq_refl)
      as (new & -> & Hnew).
    eexists. split; [simpl; rewrite <- !app_assoc; reflexivity|].
    rewrite !csv_writes_app. simpl. exact Hnew.
  - eexists. split; [simpl; rewrite <- !app_assoc; reflexivity|]. constructor.
  - destruct (Hlive (shows c s) eq_refl eq_refl eq_refl) as (new & -> & Hnew).
    eexists. split; [simpl; rewrite <- !app_assoc; reflexivity|].
    rewrite !csv_writes_app. simpl. exact Hnew.
Qed.

Lemma feed_cons c cs s : feed (c :: cs) s = feed cs (exec (_process_candle c) s).
Proof. reflexivity. Qed.

Lemma feed_writes_live cs s :
  ∃ new, trace (feed cs s) = trace s ++ new ∧
         Forall (fun w => w.1 = csv_filename s "live") (csv_writes new).
Proof.
  revert s. induction cs as [|c cs IH]; intros s.
  - exists []. split; [by rewrite app_nil_r|constructor].
  - rewrite feed_cons.
    destruct (_process_candle_writes_live c s) as (n1 & T1 & F1).
    destruct (IH (exec (_process_candle c) s)) as (n2 & T2 & F2).
    destruct (_process_candle_frame c s) as (_ & _ & _ & E1 & E2 & E3 & _).
    exists (n1 ++ n2). split; [by rewrite T2, T1, app_assoc|].
    rewrite csv_writes_app. apply Forall_app. split; [assumption|].
    unfold csv_filename in *. by rewrite E1, E2, E3 in F2.
Qed.

Lemma feed_frame cs s :
  symbol (feed cs s) = symbol s ∧ timeframe (feed cs s) = timeframe s ∧
  output_dir (feed cs s) = output_dir s.
Proof.
  revert s. induction cs as [|c cs IH]; intros s; [done|].
  rewrite feed_cons.
  destruct (IH (exec (_process_candle c) s)) as (-> & -> & ->).
  destruct (_process_candle_frame c s) as (_ & _ & _ & -> & -> & -> & _). done.
Qed.

(** Live candles and [stop] never touch the [historical] snapshot: after
    any number of live candles and a [stop], the file of the historical
    sync holds what it held, the timeline is the last 10,000 candles of
    the old timeline followed by the live candles, and the [final]
    snapshot holds that timeline. *)
Theorem final_snapshot_holds_the_timeline_beside_the_historical_one
    (cs : list candle) (s : Streamer) :
  len (candles s) <= 10000 →
  let s' := exec stop (feed cs s) in
  candles s' = py_last_n 10000 (candles s ++ cs) ∧
  snapshots (trace s') !! csv_filename s "historical" =
    snapshots (trace s) !! csv_filename s "historical" ∧
  (candles s' ≠ [] →
   snapshots (trace s') !! csv_filename s "final" = Some (candles s')).
Proof.
  intros Hlen. cbv zeta.
  destruct (stop_frame (feed cs s)) as (_ & Hc & _).
  destruct (feed_frame cs s) as (E1 & E2 & E3).
  assert (Hfn : ∀ p, csv_filename (feed cs s) p = csv_filename s p).
  { intros p. unfold csv_filename. by rewrite E1, E2, E3. }
  split; [by rewrite Hc, feed_candles|]. split.
  - rewrite stop_trace. destruct (feed_writes_live cs s) as (new & -> & Hnew).
    rewrite <- app_assoc. apply snapshots_other_files.
    rewrite !csv_writes_app, csv_writes_close, csv_writes_save, app_nil_l.
    apply Forall_app. split.
    + eapply Forall_impl; [exact Hnew|]. intros w -> H.
      apply csv_filename_label in H. discriminate H.
    + unfold saved_rows. rewrite Hfn.
      destruct (candles (feed cs s)); repeat constructor.
      simpl. intros H. apply csv_filename_label in H. discriminate H.
  - intros Hne. rewrite Hc in *. rewrite stop_trace.
    unfold save_effects. rewrite Hfn.
    destruct (candles (feed cs s)) as [|c0 l0] eqn:Ec; [done|].
    change [ToCsv (csv_filename s "final") (c0 :: l0);
            Console (SavedLine (len (c0 :: l0)) (csv_filename s "final"))]
      with ([ToCsv (csv_filename s "final") (c0 :: l0)] ++
            [Console (SavedLine (len (c0 :: l0)) (csv_filename s "final"))]).
    rewrite !app_assoc, !snapshots_snoc. apply lookup_insert_eq.
Qed.

(** ** Sessions *)








(** ** Live messages *)

Lemma bybit_live_candle_first kvs k0 rest :
  dict_lookup "data" kvs = Some (JArr (k0 :: rest)) →
  bybit_live_candle (JObj kvs) = bybit_candle_of k0.
Proof.
  intros H. unfold bybit_live_candle, bybit_candle_of.
  unfold mbind at 1 2, result_bind at 1 2. simpl. by rewrite H.
Qed.

Lemma bybit_accepts_topic interval kvs topic v :
  dict_lookup "data" kvs = Some v →
  default (JStr "") (dict_lookup "topic" kvs) = JStr topic →
  bybit_accepts interval (JObj kvs) = Ok (is_substring ("kline." +:+ interval) topic).
Proof.
  intros Hd Ht. unfold bybit_accepts, mbind, result_bind. simpl.
  rewrite Hd. simpl. by rewrite Ht.
Qed.

(** A Bybit push whose topic is accepted is handled as its first kline
    alone: whatever else the list under ['data'] holds is never read, so a
    push carrying several klines adds one candle, the first. *)
Theorem bybit_reads_the_first_kline_only
    (interval : string) (m : message) (kvs : list (string * json))
    (topic : string) (k0 : json) (rest : list json) (s : Streamer) :
  json_loads m = Ok (JObj kvs) →
  dict_lookup "data" kvs = Some (JArr (k0 :: rest)) →
  default (JStr "") (dict_lookup "topic" kvs) = JStr topic →
  is_substring ("kline." +:+ interval) topic = true →
  bybit_on_message interval m s =
    try_except (c ← lift (bybit_candle_of k0); _process_candle c)
      (fun e => emit (Console (MessageErrorLine e))) s ∧
  (∀ c, bybit_candle_of k0 = Ok c →
        candles (exec (bybit_on_message interval m) s) =
          py_last_n 10000 (candles s ++ [c])) ∧
  (∀ e, bybit_candle_of k0 = Raise e →
        exec (bybit_on_message interval m) s =
          add_effect (Console (MessageErrorLine e)) s).
Proof.
  intros Hm Hd Ht Hsub.
  assert (Heq : bybit_on_message interval m s =
                try_except (c ← lift (bybit_candle_of k0); _process_candle c)
                  (fun e => emit (Console (MessageErrorLine e))) s).
  { unfold bybit_on_message. py_unfold. rewrite Hm. cbn beta iota.
    rewrite (bybit_accepts_topic interval kvs topic _ Hd Ht), Hsub. cbn beta iota.
    by rewrite (bybit_live_candle_first kvs k0 rest Hd). }
  split; [exact Heq|]. unfold exec. rewrite Heq. py_unfold. split.
  - intros c Hc. rewrite Hc. cbn beta iota.
    pose proof (_process_candle_candles c s) as Hcs. unfold exec in Hcs.
    destruct (_process_candle c s) as [s' [[]|e]]; simpl in *; exact Hcs.
  - intros e He. by rewrite He.
Qed.

(** A frame that [json.loads] cannot decode costs one error line, on every
    exchange: the timeline, the observer and the files are left alone and
    the handler returns normally. *)
Theorem undecodable_frame_costs_one_error_line
    (app : WebSocketApp) (m : message) (e : exn) (s : Streamer) :
  ws s = Some app → json_loads m = Raise e →
  on_event (Received m) s = (add_effect (Console (MessageErrorLine e)) s, Ok ()).
Proof.
  intros Hws Hm. unfold on_event. py_unfold. cbn beta iota. rewrite Hws.
  destruct (app_handlers app); cbn beta iota;
    unfold bybit_on_message, binance_on_message, okx_on_message; py_unfold;
    by rewrite Hm.
Qed.

(** An object without the key the handler looks for (['data'] on bybit and
    okx, ['k'] on binance), such as the acknowledgement of a subscription,
    is ignored without a trace. *)
Theorem messages_without_payload_key_are_ignored
    (interval : string) (m : message) (kvs : list (string * json)) (s : Streamer) :
  json_loads m = Ok (JObj kvs) →
  (dict_lookup "data" kvs = None →
   bybit_on_message interval m s = (s, Ok ()) ∧ okx_on_message m s = (s, Ok ())) ∧
  (dict_lookup "k" kvs = None → binance_on_message m s = (s, Ok ())).
Proof.
  intros Hm. split; [intros H; split|intros H].
  - unfold bybit_on_message, bybit_accepts. py_unfold. rewrite Hm. cbn beta iota.
    unfold mbind, result_bind. simpl. by rewrite H.
  - unfold okx_on_message. py_unfold. rewrite Hm. simpl. by rewrite H.
  - unfold binance_on_message. py_unfold. rewrite Hm. simpl. by rewrite H.
Qed.


(** ** The OKX batch *)

Lemma mapM_cons_ok {A B} (f : A → result B) (x : A) (l : list A) (k : list B) :
  mapM f (x :: l) = Ok k →
  ∃ y k', f x = Ok y ∧ mapM f l = Ok k' ∧ k = y :: k'.
Proof.
  intros H. apply mapM_ok in H. inversion H as [|? y ? k' Hy Hl]; subst.
  exists y, k'. split; [assumption|]. split; [|reflexivity].
  clear H Hy. induction Hl as [|a b l k' Hab Hl IH]; [reflexivity|].
  change (mapM f (a :: l)) with
    (match f a with
     | Ok b => match mapM f l with
               | Ok k => Ok (b :: k)
               | Raise e1 => Raise e1
               end
     | Raise e1 => Raise e1
     end).
  by rewrite Hab, IH.
Qed.

Lemma okx_loop (ks : list json) (cs : list candle) (rest : list json) (s : Streamer) :
  mapM okx_live_candle ks = Ok cs →
  (∀ c, c ∈ cs → observer_returns c s) →
  py_for (ks ++ rest)
    (fun kline => c ← lift (okx_live_candle kline); _process_candle c) s =
  py_for rest
    (fun kline => c ← lift (okx_live_candle kline); _process_candle c) (feed cs s).
Proof.
  revert cs s. induction ks as [|k ks IH]; intros cs s Hcs Hobs.
  - inversion Hcs. reflexivity.
  - apply mapM_cons_ok in Hcs as (c & cs' & Hk & Hcs' & ->).
    assert (Hc : observer_returns c s) by (apply Hobs; left).
    destruct (_process_candle_returns c s Hc) as [Hok _].
    destruct (_process_candle_frame c s) as (_ & _ & Hcb & _).
    rewrite feed_cons, <- (IH cs' (exec (_process_candle c) s) Hcs').
    + simpl. unfold exec, outcome in *. py_unfold. rewrite Hk. cbn beta iota.
      destruct (_process_candle c s) as [s1 r]. simpl in *. by subst.
    + intros c' Hc' f' Hf'. apply (Hobs c'); [by right|]. by rewrite <- Hcb.
Qed.

(** An OKX push is handled kline by kline, in the order of the message:
    when all of them parse (and the observer returns on each), the state
    after the message is the state after one [_process_candle] call per
    kline. *)
Theorem okx_appends_one_candle_per_kline
    (m : message) (kvs : list (string * json)) (ks : list json)
    (cs : list candle) (s : Streamer) :
  json_loads m = Ok (JObj kvs) →
  dict_lookup "data" kvs = Some (JArr ks) →
  mapM okx_live_candle ks = Ok cs →
  (∀ c, c ∈ cs → observer_returns c s) →
  okx_on_message m s = (feed cs s, Ok ()).
Proof.
  intros Hm Hd Hcs Hobs.
  pose proof (okx_loop ks cs [] s Hcs Hobs) as H. rewrite app_nil_r in H.
  unfold okx_on_message. py_unfold.
  rewrite Hm. simpl. rewrite Hd. simpl. by rewrite H.
Qed.

(** The OKX batch is not all or nothing: when a kline of the push does not
    parse, and the observer (if any) returned normally on the candle of
    each kline before it, these klines have already gone through
    [_process_candle] and stay in the timeline, the klines after it are
    dropped, and one error line is printed. *)
Theorem okx_keeps_the_klines_before_a_malformed_one
    (m : message) (kvs : list (string * json)) (ks1 ks2 : list json) (bad : json)
    (cs1 : list candle) (e : exn) (s : Streamer) :
  json_loads m = Ok (JObj kvs) →
  dict_lookup "data" kvs = Some (JArr (ks1 ++ bad :: ks2)) →
  mapM okx_live_candle ks1 = Ok cs1 →
  okx_live_candle bad = Raise e →
  (∀ c, c ∈ cs1 → observer_returns c s) →
  okx_on_message m s =
    (add_effect (Console (MessageErrorLine e)) (feed cs1 s), Ok ()).
Proof.
  intros Hm Hd Hcs Hbad Hobs.
  pose proof (okx_loop ks1 cs1 (bad :: ks2) s Hcs Hobs) as H.
  unfold okx_on_message. py_unfold.
  rewrite Hm. simpl. rewrite Hd. simpl. rewrite H. simpl. by rewrite Hbad.
Qed.

(** ** What is asked of the exchange *)

Lemma str_take_drop (n : nat) (s : string) : str_take n s +:+ str_drop n s = s.
Proof.
  revert s. induction n as [|n IH]; intros [|c s]; simpl; try reflexivity.
  change (String c (str_take n s +:+ str_drop n s) = String c s). by rewrite IH.
Qed.

Lemma str_take_length (n : nat) (s : string) :
  String.length (str_take n s) = Nat.min n (String.length s).
Proof.
  revert s. induction n as [|n IH]; intros [|c s]; simpl; try reflexivity.
  by rewrite IH.
Qed.

(** The OKX instrument id is the symbol cut after its third character
    (or at its end, when it is shorter), the two pieces joined by a dash,
    with the suffix [-SWAP]: the pieces put together give the symbol back,
    whatever the length of the base asset. *)
Theorem okx_inst_id_cuts_the_symbol_after_three_characters (s : Streamer) :
  ∃ base quote,
    okx_inst_id s = base +:+ "-" +:+ quote +:+ "-SWAP" ∧
    base +:+ quote = symbol s ∧
    String.length base = Nat.min 3 (String.length (symbol s)).
Proof.
  exists (str_take 3 (symbol s)), (str_drop 3 (symbol s)).
  split; [reflexivity|]. split; [apply str_take_drop|apply str_take_length].
Qed.

(** The historical request and the live subscription of a streamer ask
    for the same bars: the same interval code and the same instrument, on
    each exchange (on binance both are in the URL of the socket, the
    symbol in lower case). *)
Theorem historical_and_live_ask_for_the_same_bars
    (sym tf dir : string) (cb : option (candle → result unit)) (limit : Z) :
  let bybit := __init__ sym tf "bybit" dir in
  let binance := __init__ sym tf "binance" dir in
  let okx := __init__ sym tf "okx" dir in
  (∃ i, dict_lookup "interval" (fetch_request bybit limit).2 = Some (JStr i) ∧
        dict_lookup "symbol" (fetch_request bybit limit).2 = Some (JStr sym) ∧
        trace (exec (on_event Opened) (exec (start_live cb) bybit)) =
          trace (exec (start_live cb) bybit) ++
            [Console (ConnectedLine "Bybit" tf sym);
             WsSend (JObj [("op", JStr "subscribe");
                           ("args", JArr [JStr ("kline." +:+ i +:+ "." +:+ sym)])])]) ∧
  (∃ i, dict_lookup "interval" (fetch_request binance limit).2 = Some (JStr i) ∧
        dict_lookup "symbol" (fetch_request binance limit).2 = Some (JStr sym) ∧
        connects (trace (exec (start_live cb) binance)) =
          [ws_url binance_cfg +:+ "/" +:+ str_lower sym +:+ "@kline_" +:+ i]) ∧
  (∃ i id, dict_lookup "bar" (fetch_request okx limit).2 = Some (JStr i) ∧
           dict_lookup "instId" (fetch_request okx limit).2 = Some (JStr id) ∧
           trace (exec (on_event Opened) (exec (start_live cb) okx)) =
             trace (exec (start_live cb) okx) ++
               [Console (ConnectedLine "OKX" tf sym);
                WsSend (JObj [("op", JStr "subscribe");
                              ("args", JArr [JObj [("channel", JStr ("candle" +:+ i));
                                                   ("instId", JStr id)]])])]).
Proof.
  cbv zeta. split; [|split].
  - exists (bybit_interval tf). repeat split; reflexivity.
  - exists (binance_interval tf). repeat split; reflexivity.
  - exists (okx_interval tf), (okx_inst_id (__init__ sym tf "okx" dir)).
    repeat split; reflexivity.
Qed.

(** ** Revisions of a bar *)

(** Every live candle becomes the newest entry of the timeline, which
    grows by one until the cap: the handler never looks at the timestamp
    of the tail, so an update of the bar that is already at the tail is
    stored after it, not in its place. *)
Theorem live_update_is_appended_never_replaced
    (c c0 : candle) (l : list candle) (s : Streamer) :
  let s' := exec (_process_candle c) s in
  len (candles s') = Z.min 10000 (len (candles s) + 1) ∧
  last (candles s') = Some c ∧
  (candles s = l ++ [c0] → ∃ l', candles s' = l' ++ [c0; c]).
Proof.
  cbv zeta. rewrite _process_candle_candles. split; [|split].
  - rewrite py_last_n_len by lia. unfold len. rewrite length_app. simpl. lia.
  - unfold py_last_n. rewrite drop_app_le by (rewrite length_app; simpl; lia).
    apply last_snoc.
  - intros ->. unfold py_last_n. rewrite <- app_assoc. simpl.
    exists (drop (length (l ++ [c0; c]) - Z.to_nat 10000) l).
    apply drop_app_le. rewrite length_app. simpl. lia.
Qed.

(** ** Where the confirmed flag comes from *)

(** On bybit the flag of a live candle is the value found under
    ['confirm'] in the kline, whatever that value is, and [False] when the
    key is missing; on binance it is the value under ['x'], and a kline
    without that key gives no candle at all. *)
Theorem live_confirmed_flag_is_read_from_the_kline
    (kvs : list (string * json)) (data : json) (c : candle) :
  (bybit_candle_of (JObj kvs) = Ok c →
   confirmed c = Some (default (JBool false) (dict_lookup "confirm" kvs))) ∧
  (binance_live_candle data = Ok c →
   ∃ kline x, py_item data "k" = Ok kline ∧ py_item kline "x" = Ok x ∧
              confirmed c = Some x).
Proof.
  split.
  - unfold bybit_candle_of. intros H. result_cases.
    simpl in H. by inversion H.
  - unfold binance_live_candle. intros H. result_cases.
    inversion H. eauto.
Qed.

(** ** Which file a session writes *)

Lemma only_live_writes_refl s : only_live_writes s s.
Proof.
  unfold only_live_writes. repeat split. exists [].
  split; [by rewrite app_nil_r|constructor].
Qed.

Lemma only_live_writes_trans s1 s2 s3 :
  only_live_writes s1 s2 → only_live_writes s2 s3 → only_live_writes s1 s3.
Proof.
  intros (A1 & A2 & A3 & n1 & T1 & F1) (B1 & B2 & B3 & n2 & T2 & F2).
  unfold only_live_writes. repeat split; try congruence.
  exists (n1 ++ n2). split; [by rewrite T2, T1, app_assoc|].
  rewrite csv_writes_app. apply Forall_app. split; [assumption|].
  unfold csv_filename in *. by rewrite A1, A2, A3 in F2.
Qed.

Lemma emit_only_live e :
  csv_writes [e] = [] → preserves only_live_writes (emit e).
Proof.
  intros He s. unfold exec, emit, modify, only_live_writes. simpl.
  repeat split. exists [e]. split; [reflexivity|]. rewrite He. constructor.
Qed.

Lemma process_only_live c : preserves only_live_writes (_process_candle c).
Proof.
  intros s. destruct (_process_candle_frame c s) as (_ & _ & _ & E1 & E2 & E3 & _).
  destruct (_process_candle_writes_live c s) as (new & T & F).
  unfold only_live_writes. repeat split; try assumption. by exists new.
Qed.

Lemma handler_only_live {A} (parse : result A) (body : A → Py unit) :
  (∀ a, preserves only_live_writes (body a)) →
  preserves only_live_writes (lift parse ≫= body).
Proof.
  intros H. apply preserves_bind_lift; [apply only_live_writes_refl|].
  intros a _. apply H.
Qed.

Lemma try_only_live (body : Py unit) :
  preserves only_live_writes body →
  preserves only_live_writes
    (try_except body (fun e => emit (Console (MessageErrorLine e)))).
Proof.
  intros H. apply preserves_try; [apply only_live_writes_trans|assumption|].
  intros e. by apply emit_only_live.
Qed.

Lemma on_event_only_live ev : preserves only_live_writes (on_event ev).
Proof.
  unfold on_event. apply preserves_bind_self. intros s.
  destruct (ws s) as [app|]; [|apply only_live_writes_refl].
  destruct (app_handlers app) as [interval| |interval inst_id], ev as [|m| |];
    try apply only_live_writes_refl.
  - unfold bybit_on_open. apply preserves_bind_self. intros t.
    apply preserves_bind; [apply only_live_writes_trans|by apply emit_only_live|].
    intros _. by apply emit_only_live.
  - unfold bybit_on_message. apply try_only_live.
    apply handler_only_live; intros data. apply handler_only_live; intros accepted.
    destruct accepted; [|apply preserves_ret, only_live_writes_refl].
    apply handler_only_live; intros c. apply process_only_live.
  - by apply emit_only_live.
  - unfold exec. rewrite bybit_on_close_eq.
    destruct (running s); unfold only_live_writes; simpl; repeat split;
      (eexists; split; [rewrite <- ?app_assoc; reflexivity|constructor]).
  - unfold binance_on_open. apply preserves_bind_self. intros t.
    by apply emit_only_live.
  - unfold binance_on_message. apply try_only_live.
    apply handler_only_live; intros data. apply handler_only_live; intros has_k.
    destruct has_k; [|apply preserves_ret, only_live_writes_refl].
    apply handler_only_live; intros c. apply process_only_live.
  - unfold okx_on_open. apply preserves_bind_self. intros t.
    apply preserves_bind; [apply only_live_writes_trans|by apply emit_only_live|].
    intros _. by apply emit_only_live.
  - unfold okx_on_message. apply try_only_live.
    apply handler_only_live; intros data. apply handler_only_live; intros has_data.
    destruct has_data; [|apply preserves_ret, only_live_writes_refl].
    apply handler_only_live; intros d. apply handler_only_live; intros klines.
    apply preserves_for; [apply only_live_writes_refl|apply only_live_writes_trans|].
    intros kline _. apply handler_only_live; intros c. apply process_only_live.
Qed.

(** Socket events write the [live] snapshot and no other file: whatever
    the socket delivers, on any exchange, the [historical] and the [final]
    file hold afterwards what they held before.  The [final] snapshot is
    written by [stop] alone; a session that ends because its connection
    closed, without a call of [stop], leaves none. *)
Theorem socket_events_write_the_live_snapshot_only
    (events : list ws_event) (s : Streamer) :
  let s' := exec (run_session (Event <$> events)) s in
  only_live_writes s s' ∧
  snapshots (trace s') !! csv_filename s "historical" =
    snapshots (trace s) !! csv_filename s "historical" ∧
  snapshots (trace s') !! csv_filename s "final" =
    snapshots (trace s) !! csv_filename s "final".
Proof.
  cbv zeta.
  assert (H : only_live_writes s (exec (run_session (Event <$> events)) s)).
  { unfold run_session.
    apply preserves_for; [apply only_live_writes_refl|apply only_live_writes_trans|].
    intros x Hx. apply list_elem_of_fmap in Hx as (ev & -> & _).
    apply on_event_only_live. }
  split; [exact H|]. destruct H as (_ & _ & _ & new & -> & F).
  split; apply snapshots_other_files; (eapply Forall_impl; [exact F|]);
    intros w -> H; apply csv_filename_label in H; discriminate H.
Qed.

End MoreProperties.

(** * The results on concrete sessions *)

(** A running Bybit session reconnects after a close. *)
Lemma bybit_reconnect_example :
  trace (exec (on_event (lib := demo_live_library) Closed) (demo_session "bybit")) =
    trace (demo_session "bybit") ++
      [Console ClosedLine; Console ReconnectingLine; Sleep 5;
       RunForever "wss://stream.bybit.com/v5/public/linear"] ∧
  shown (trace (demo_session "bybit")) = [].
Proof.
  split; [|reflexivity].
  apply (bybit_close_while_running_reconnects (lib := demo_live_library)
           (demo_session "bybit")); reflexivity.
Defined.

(** C2: on Bybit, with [limit = 3] and five klines in the response, the
    fetch returns five candles; on Binance, with the same five klines, it
    returns them in the order of the response, which is not ascending. *)
Lemma fetch_historical_keeps_every_kline_and_binance_order :
  (∃ cs, outcome (fetch_historical (lib := demo_library (Ok demo_bybit_response)) 3)
           (demo_streamer "bybit") = Ok cs ∧
         ¬ len cs <= Z.min 3 1000) ∧
  (∃ cs, outcome (fetch_historical (lib := demo_library (Ok demo_klines)) 3)
           (demo_streamer "binance") = Ok cs ∧
         ¬ Sorted Z.le (timestamp <$> cs)).
Proof.
  split; eexists; (split; [vm_compute; reflexivity|]).
  - vm_compute. intros H. by apply H.
  - intros H. repeat (apply Sorted_inv in H as [H ?]).
    repeat match goal with
           | X : HdRel _ _ _ |- _ => apply HdRel_inv in X; try by vm_compute in X
           end.
Qed.

(** C2 on an example: the Bybit response above gives a sorted list. *)
Lemma fetch_historical_bybit_example :
  "bybit" ∈ ["bybit"; "binance"; "okx"] ∧
  ∃ cs, outcome (fetch_historical (lib := demo_library (Ok demo_bybit_response)) 3)
          (demo_streamer "bybit") = Ok cs ∧
        Sorted Z.le (timestamp <$> cs) ∧ length cs = 5%nat.
Proof.
  assert (Hex : exchange (demo_streamer "bybit") ∈ ["bybit"; "binance"; "okx"])
    by (simpl; left).
  split; [exact Hex|].
  destruct (fetch_historical_sorted_one_candle_per_kline
              (lib := demo_library (Ok demo_bybit_response)) 3
              (demo_streamer "bybit") Hex)
    as (cs & rest & Hout & _ & _ & _ & Hsorted & _).
  exists cs. split; [exact Hout|]. split; [by apply Hsorted|].
  vm_compute in Hout. by inversion Hout.
Defined.





(** C5: the candles of the Bybit example come back without the key
    [confirmed]; none has it equal to [True]. *)
Lemma historical_candle_without_confirmed_flag :
  ∃ cs, outcome (fetch_historical (lib := demo_library (Ok demo_bybit_response)) 3)
          (demo_streamer "bybit") = Ok cs ∧
        cs ≠ [] ∧
        Forall (fun c => confirmed c ≠ Some (JBool true)) cs.
Proof.
  eexists. split; [vm_compute; reflexivity|]. split; [discriminate|].
  repeat constructor; discriminate.
Qed.

(** C6: [stop] on a streamer whose timeline is empty writes no snapshot. *)
Lemma stop_on_empty_timeline_writes_nothing :
  candles (demo_streamer "bybit") = [] ∧
  trace (exec stop (demo_streamer "bybit")) = trace (demo_streamer "bybit") ∧
  csv_writes (trace (exec stop (demo_session "bybit"))) = [].
Proof. repeat split; reflexivity. Qed.

(** C7: two calls of [stop] write no final snapshot when the timeline is
    empty, and call [to_csv] twice when it holds a candle. *)
Lemma stop_twice_writes_zero_or_two_times :
  csv_writes (trace (exec stop (exec stop (demo_streamer "bybit")))) = [] ∧
  csv_writes (trace (exec stop (exec stop
     (set_candles [demo_candle 1000 None] (demo_streamer "bybit"))))) =
    [("data/BTCUSDT_1m_final.csv", [demo_candle 1000 None]);
     ("data/BTCUSDT_1m_final.csv", [demo_candle 1000 None])].
Proof. split; vm_compute; reflexivity. Qed.

(** C8: the hundredth candle of a timeline triggers the [live] snapshot. *)
Lemma hundredth_candle_is_saved :
  ∃ new,
    trace (exec (_process_candle (demo_candle 99 None)) demo_observed) =
      trace demo_observed ++ new ∧
    ("data/BTCUSDT_1m_live.csv",
     candles (exec (_process_candle (demo_candle 99 None)) demo_observed))
      ∈ csv_writes new.
Proof.
  assert (Hobs : observer_returns (demo_candle 99 None) demo_observed).
  { intros f Hf. injection Hf as <-. reflexivity. }
  destruct (live_checkpoint_iff_length_multiple_of_100
              (demo_candle 99 None) demo_observed)
    as (_ & new & Htr & Hret & _).
  destruct (Hret Hobs) as (_ & Hiff & _).
  exists new. split; [exact Htr|]. apply Hiff. vm_compute. reflexivity.
Defined.

(** C8: with an observer that raises, the candle that takes the timeline
    to 100 entries is appended, and no snapshot is written. *)
Lemma observer_exception_skips_the_hundredth_checkpoint :
  len (candles (exec (_process_candle (demo_candle 99 None)) demo_observed_raising))
    `mod` 100 = 0 ∧
  outcome (_process_candle (demo_candle 99 None)) demo_observed_raising =
    Raise ObserverError ∧
  csv_writes (trace (exec (_process_candle (demo_candle 99 None))
                       demo_observed_raising)) = [].
Proof. repeat split; vm_compute; reflexivity. Qed.

(** C9: [1s] is not an OKX timeframe and is looked up as [1m]; [1h] is
    looked up as ["60"] on Bybit. *)
Lemma interval_lookup_examples :
  okx_interval "1s" = "1m" ∧ intervals bybit_cfg !! "1h" = Some "60".
Proof.
  split.
  - apply (interval_lookup_falls_back_to_default "1s"). vm_compute. reflexivity.
  - assert (H : "1h" ∈ ["1m"; "5m"; "15m"; "1h"; "4h"; "1D"]) by (do 3 right; left).
    destruct (interval_lookup_falls_back_to_default "1h") as (_ & _ & _ & Hin).
    destruct (Hin H) as (Hb & _). exact Hb.
Defined.

(** C10: the OKX push of a bar that is still in progress (last field
    ["0"]) enters the timeline with [confirmed = True]. *)
Lemma okx_in_progress_bar_is_marked_confirmed :
  candles (exec (okx_on_message (lib := demo_live_library) demo_okx_frame)
             (demo_session "okx")) = [demo_candle 1000 (Some (JBool true))] ∧
  ∀ c, c ∈ candles (exec (okx_on_message (lib := demo_live_library) demo_okx_frame)
                      (demo_session "okx")) →
       confirmed c = Some (JBool true).
Proof.
  split; [vm_compute; reflexivity|].
  destruct (okx_live_candles_always_confirmed (lib := demo_live_library)
              demo_okx_frame (demo_session "okx")) as (_ & Hin & _).
  intros c Hc. destruct (Hin c Hc) as [H|H]; [|exact H].
  by apply elem_of_nil in H.
Defined.

(** * The further properties on concrete sessions *)

(** A response whose second kline is cut short gives no candle at all. *)
Lemma broken_response_is_dropped :
  ∃ e, fetch_aborted (lib := demo_library (Ok demo_broken_response)) 3
         (demo_streamer "bybit") e.
Proof.
  eapply (malformed_kline_drops_the_whole_batch
            (lib := demo_library (Ok demo_broken_response)) 3 (demo_streamer "bybit")
            demo_broken_response
            [demo_kline "1000"; demo_short_kline; demo_kline "3000"]
            demo_short_kline IndexError).
  - simpl. left.
  - reflexivity.
  - reflexivity.
  - right. left.
  - reflexivity.
Defined.


(** A request that fails aborts the fetch with its exception. *)
Lemma network_failure_is_dropped :
  fetch_aborted (lib := demo_live_library) 3 (demo_streamer "okx") RequestException.
Proof.
  apply (failed_request_aborts_the_fetch (lib := demo_live_library)).
  - simpl. do 2 right. left.
  - reflexivity.
Defined.

(** A streamer for [kraken], which the class does not know. *)
Lemma kraken_session_has_no_socket :
  start_live None (demo_streamer "kraken") =
    (set_on_candle_callback None (set_running true (demo_streamer "kraken")), Ok ()) ∧
  fetch_aborted (lib := demo_live_library) 3 (demo_streamer "kraken") ValueError.
Proof.
  assert (H : exchange (demo_streamer "kraken") ∉ ["bybit"; "binance"; "okx"]).
  { simpl. intros H. repeat (apply elem_of_cons in H as [H|H]; [discriminate H|]).
    by apply elem_of_nil in H. }
  destruct (unknown_exchange_runs_without_a_socket (lib := demo_live_library)
              3 None (demo_streamer "kraken") H) as (H1 & _ & H3 & _).
  split; assumption.
Defined.

(** The five klines of the Bybit example, sorted, become the timeline. *)
Lemma bybit_example_replaces_the_timeline :
  ∃ out, outcome (fetch_historical (lib := demo_library (Ok demo_bybit_response)) 3)
           (demo_streamer "bybit") = Ok out ∧
         candles (exec (fetch_historical (lib := demo_library (Ok demo_bybit_response)) 3)
                    (demo_streamer "bybit")) = out ∧
         timestamp <$> out = [1000; 2000; 2500; 3000; 4000].
Proof.
  assert (Hex : exchange (demo_streamer "bybit") ∈ ["bybit"; "binance"; "okx"])
    by (simpl; left).
  destruct (successful_fetch_replaces_the_timeline
              (lib := demo_library (Ok demo_bybit_response)) 3 (demo_streamer "bybit")
              demo_bybit_response
              [demo_kline "1000"; demo_kline "2000"; demo_kline "3000";
               demo_kline "4000"; demo_kline "2500"]
              (fmap (M := list) (fun ts => demo_candle ts None) [1000; 2000; 3000; 4000; 2500])
              Hex eq_refl eq_refl eq_refl)
    as (out & Hout & _ & Heq & Hc & _).
  exists out. split; [exact Hout|]. split; [exact Hc|]. rewrite Heq. reflexivity.
Defined.

(** One more candle on a full timeline rewrites the [live] snapshot. *)
Lemma full_timeline_is_saved_at_once :
  len (candles (exec (_process_candle (demo_candle 10000 None)) demo_full)) = 10000 ∧
  csv_writes (trace (exec (_process_candle (demo_candle 10000 None)) demo_full)) =
    csv_writes (trace demo_full) ++
      [("data/BTCUSDT_1m_live.csv",
        candles (exec (_process_candle (demo_candle 10000 None)) demo_full))].
Proof.
  apply (full_buffer_checkpoints_on_every_candle (demo_candle 10000 None) demo_full).
  - vm_compute. discriminate.
  - intros f Hf. discriminate Hf.
Defined.

(** A session fed 10,050 candles and stopped never wrote a [historical] file. *)
Lemma final_snapshot_of_a_fed_session :
  candles (exec stop (feed demo_feed (demo_streamer "binance"))) =
    py_last_n 10000 (candles (demo_streamer "binance") ++ demo_feed) ∧
  snapshots (trace (exec stop (feed demo_feed (demo_streamer "binance"))))
    !! "data/BTCUSDT_1m_historical.csv" = None.
Proof.
  destruct (final_snapshot_holds_the_timeline_beside_the_historical_one
              demo_feed (demo_streamer "binance")) as (H1 & H2 & _).
  - vm_compute. discriminate.
  - split; [exact H1|]. exact H2.
Defined.

(** Of a Bybit push with two klines, the first enters the timeline. *)
Lemma bybit_double_push_adds_the_first_kline :
  candles (exec (bybit_on_message (lib := demo_live_library) "1"
                   (JObj demo_bybit_double_push)) (demo_session "bybit")) =
    py_last_n 10000 (candles (demo_session "bybit") ++ [demo_candle 1000 (Some (JBool false))]).
Proof.
  destruct (bybit_reads_the_first_kline_only (lib := demo_live_library) "1"
              (JObj demo_bybit_double_push) demo_bybit_double_push
              "kline.1.BTCUSDT" (demo_bybit_kline 1000) [demo_bybit_kline 2000]
              (demo_session "bybit") eq_refl eq_refl eq_refl eq_refl)
    as (_ & H & _).
  apply H. reflexivity.
Defined.

(** A frame that does not decode, on an OKX session. *)
Lemma undecodable_frame_example :
  on_event (@Received demo_text_library None) (demo_session "okx") =
    (add_effect (Console (MessageErrorLine JSONDecodeError)) (demo_session "okx"), Ok ()).
Proof.
  eapply (undecodable_frame_costs_one_error_line (lib := demo_text_library));
    reflexivity.
Defined.

(** The acknowledgement of a subscription, on the three exchanges. *)
Lemma acknowledgement_is_ignored :
  bybit_on_message (lib := demo_live_library) "1" (JObj demo_ack) (demo_session "bybit") =
    (demo_session "bybit", Ok ()) ∧
  okx_on_message (lib := demo_live_library) (JObj demo_ack) (demo_session "okx") =
    (demo_session "okx", Ok ()) ∧
  binance_on_message (lib := demo_live_library) (JObj demo_ack) (demo_session "binance") =
    (demo_session "binance", Ok ()).
Proof.
  split; [|split].
  - apply (messages_without_payload_key_are_ignored (lib := demo_live_library)
             "1" (JObj demo_ack) demo_ack (demo_session "bybit") eq_refl).
    reflexivity.
  - apply (messages_without_payload_key_are_ignored (lib := demo_live_library)
             "1" (JObj demo_ack) demo_ack (demo_session "okx") eq_refl).
    reflexivity.
  - apply (messages_without_payload_key_are_ignored (lib := demo_live_library)
             "1" (JObj demo_ack) demo_ack (demo_session "binance") eq_refl).
    reflexivity.
Defined.


(** Of an OKX push with two klines, both enter the timeline. *)
Lemma okx_double_push_adds_both_klines :
  okx_on_message (lib := demo_live_library) (JObj demo_okx_double_push)
    (demo_session "okx") =
    (feed [demo_candle 1000 (Some (JBool true)); demo_candle 2000 (Some (JBool true))]
       (demo_session "okx"), Ok ()).
Proof.
  apply (okx_appends_one_candle_per_kline (lib := demo_live_library)
           (JObj demo_okx_double_push) demo_okx_double_push
           [demo_okx_kline "1000"; demo_okx_kline "2000"]).
  - reflexivity.
  - reflexivity.
  - reflexivity.
  - intros c _ f Hf. discriminate Hf.
Defined.

(** Of an OKX push with a short kline in the middle, received by a session
    without observer, the first kline enters the timeline. *)
Lemma okx_broken_push_keeps_the_first_kline :
  okx_on_message (lib := demo_live_library) (JObj demo_okx_broken_push)
    (demo_session "okx") =
    (add_effect (Console (MessageErrorLine IndexError))
       (feed [demo_candle 1000 (Some (JBool true))] (demo_session "okx")), Ok ()).
Proof.
  apply (okx_keeps_the_klines_before_a_malformed_one (lib := demo_live_library)
           (JObj demo_okx_broken_push) demo_okx_broken_push
           [demo_okx_kline "1000"] [demo_okx_kline "3000"] demo_short_kline).
  - reflexivity.
  - reflexivity.
  - reflexivity.
  - reflexivity.
  - intros c _ f Hf. discriminate Hf.
Defined.
